(** * Lung tumour classification front-end: request orchestration and rendering

    A shallow embedding of the two page controllers of the web front-end,
    [web/classification/script.js] (class [LungTumorClassifier]) and
    [web/augmentation/augmentation-script.js] (class [ImageAugmentationApp]),
    together with the properties their specification states about them.

    JavaScript numbers are IEEE 754 binary64 values: they are modelled by
    Rocq's primitive floats, so that products such as [0.97 * 100] and
    [Number.prototype.toFixed] are computed exactly as the browser does.
    Values received from the remote endpoint are JSON values; page state is
    a record threaded explicitly through every method. *)

From Stdlib Require Import ZArith List String Ascii Bool Lia.
From Stdlib Require Import DecimalString.
From Stdlib Require Import PrimFloat SpecFloat FloatOps.
From Stdlib Require Import Permutation Sorted.
Import ListNotations.
Local Open Scope string_scope.
Set Warnings "-register-all,-inexact-float".

(** ** Strings and arrays *)

Module Text.

(** [l.includes(x)] on an array of strings. *)
Definition includes (l : list string) (x : string) : bool :=
  existsb (String.eqb x) l.

(** [s.split(sep)] for a one-character separator. *)
Fixpoint split (sep : ascii) (s : string) : list string :=
  match s with
  | EmptyString => [""]
  | String c rest =>
      if Ascii.eqb c sep then "" :: split sep rest
      else match split sep rest with
           | [] => [String c ""]
           | w :: ws => String c w :: ws
           end
  end.

(** [c.toUpperCase()] on the ASCII range; class names are ASCII. *)
Definition toUpperCase (c : ascii) : ascii :=
  let n := nat_of_ascii c in
  if Nat.leb 97 n && Nat.leb n 122 then ascii_of_nat (n - 32) else c.

(** [word.charAt(0).toUpperCase() + word.slice(1)]. *)
Definition capitalize (word : string) : string :=
  match word with
  | EmptyString => ""
  | String c rest => String (toUpperCase c) rest
  end.

(** Stable insertion sort: [x] goes in front of the first element it must
    precede, hence behind every element that arrived earlier and ties with
    it.  [Array.prototype.sort] is stable, and for a consistent comparator
    its result is this one. *)
Fixpoint insert {A} (precedes : A -> A -> bool) (x : A) (l : list A) : list A :=
  match l with
  | [] => [x]
  | y :: l' => if precedes x y then x :: y :: l' else y :: insert precedes x l'
  end.

Definition sort_by {A} (precedes : A -> A -> bool) (l : list A) : list A :=
  fold_left (fun acc x => insert precedes x acc) l [].

(** [arr.sort(comparefn)]: [a] is placed before [b] when
    [comparefn(a, b) < 0]. *)
Definition sort {A} (comparefn : A -> A -> float) (l : list A) : list A :=
  sort_by (fun a b => (comparefn a b <? 0)%float) l.

End Text.

(** ** JavaScript values *)

Module Js.

(** JSON values as delivered by the Gradio client, plus [undefined] for an
    absent property.  Object properties are kept in insertion order, which is
    the order [Object.entries] enumerates (non-index) string keys in. *)
Inductive value : Type :=
| Undefined
| Null
| Bool (b : bool)
| Num (x : float)
| Str (s : string)
| Arr (items : list value)
| Obj (props : list (string * value)).

(** ToBoolean. *)
Definition truthy (v : value) : bool :=
  match v with
  | Undefined | Null => false
  | Bool b => b
  | Num x => negb (PrimFloat.is_nan x || PrimFloat.is_zero x)
  | Str s => negb (String.eqb s "")
  | Arr _ | Obj _ => true
  end.

(** [v !== null]. *)
Definition not_null (v : value) : bool :=
  match v with Null => false | _ => true end.

(** [typeof v === "string"]. *)
Definition is_string (v : value) : bool :=
  match v with Str _ => true | _ => false end.

Fixpoint assoc (k : string) (props : list (string * value)) : value :=
  match props with
  | [] => Undefined
  | (k', v) :: rest => if String.eqb k k' then v else assoc k rest
  end.

(** [v.k] for a property name [k] that no prototype defines ([data],
    [error], [class], [probabilities], [url], [path]): own properties of an
    object, [undefined] on every other non-nullish value.  Callers guard the
    receiver with a truthiness test, so the nullish case (a TypeError in
    JavaScript) is never reached; it yields [Undefined] here. *)
Definition get (v : value) (k : string) : value :=
  match v with
  | Obj props => assoc k props
  | _ => Undefined
  end.

(** [v[i]] for a numeric index: array element, one-character string, the
    own property named by the decimal numeral, else [undefined]. *)
Definition index (v : value) (i : nat) : value :=
  match v with
  | Arr items => nth i items Undefined
  | Str s => match String.get i s with
             | Some c => Str (String c EmptyString)
             | None => Undefined
             end
  | Obj props => assoc (NilZero.string_of_uint (Nat.to_uint i)) props
  | _ => Undefined
  end.

(** The decimal numeral of a natural number, as a property key. *)
Definition numeral (n : nat) : string :=
  NilZero.string_of_uint (Nat.to_uint n).

(** An array index: the canonical numeral of an integer below 2^32 - 1. *)
Definition array_index (k : string) : option N :=
  match NilZero.uint_of_string k with
  | Some d =>
      let n := N.of_uint d in
      if String.eqb (NilZero.string_of_uint (N.to_uint n)) k
         && (n <? 4294967295)%N
      then Some n else None
  | None => None
  end.

Definition is_array_index (k : string) : bool :=
  match array_index k with Some _ => true | None => false end.

Definition index_before (x y : string * value) : bool :=
  match array_index (fst x), array_index (fst y) with
  | Some i, Some j => (i <? j)%N
  | _, _ => false
  end.

(** Own enumerable string keys in property order: array indices ascending,
    then the other keys in insertion order. *)
Definition own_entries (props : list (string * value)) : list (string * value) :=
  Text.sort_by index_before (filter (fun e => is_array_index (fst e)) props)
  ++ filter (fun e => negb (is_array_index (fst e))) props.

Fixpoint chars (s : string) : list value :=
  match s with
  | EmptyString => []
  | String c rest => Str (String c EmptyString) :: chars rest
  end.

Definition numbered (items : list value) : list (string * value) :=
  combine (map numeral (seq 0 (List.length items))) items.

(** [Object.entries(v)] for a non-nullish [v]. *)
Definition entries (v : value) : list (string * value) :=
  match v with
  | Obj props => own_entries props
  | Arr items => numbered items
  | Str s => numbered (chars s)
  | _ => []
  end.

(** ** Numbers *)

(** ToNumber, on the values whose conversion parses no string ([None] on
    strings, arrays and objects). *)
Definition to_number (v : value) : option float :=
  match v with
  | Undefined => Some nan
  | Null => Some 0%float
  | Bool b => Some (if b then 1%float else 0%float)
  | Num x => Some x
  | Str _ | Arr _ | Obj _ => None
  end.

(** Decimal numeral of a non-negative integer. *)
Definition digits (n : Z) : string :=
  NilZero.string_of_uint (N.to_uint (Z.to_N n)).

Fixpoint zeros (k : nat) : string :=
  match k with
  | O => ""
  | S k' => String "0" (zeros k')
  end.

(** The integer [n] for which [n / 10^f - m * 2^e] is as close to zero as
    possible, the larger one when there are two (step 10.a of
    [Number.prototype.toFixed]). *)
Definition nearest_scaled (f : nat) (m : positive) (e : Z) : Z :=
  let num := (Z.pos m * 10 ^ Z.of_nat f)%Z in
  if (0 <=? e)%Z then (num * 2 ^ e)%Z
  else let den := (2 ^ (- e))%Z in ((2 * num + den) / (2 * den))%Z.

(** Places the decimal point [f] digits from the right of the numeral of
    [n], left-padding with zeros to [f + 1] digits first. *)
Definition place_point (f : nat) (n : Z) : string :=
  let m := digits n in
  match f with
  | O => m
  | _ =>
      let k := String.length m in
      let m' := if Nat.leb k f then zeros (f + 1 - k) ++ m else m in
      let k' := String.length m' in
      substring 0 (k' - f) m' ++ "." ++ substring (k' - f) f m'
  end.

(** [x.toFixed(f)] for [0 <= f <= 100].  The result is [None] only for
    |x| >= 10^21, where JavaScript switches to exponent notation, which is
    not modelled. *)
Definition toFixed (x : float) (f : nat) : option string :=
  match Prim2SF x with
  | S754_nan => Some "NaN"
  | S754_infinity s => Some (if s then "-Infinity" else "Infinity")
  | S754_zero _ => Some (place_point f 0)
  | S754_finite s m e =>
      let big := if (0 <=? e)%Z then (10 ^ 21 <=? Z.pos m * 2 ^ e)%Z
                 else (10 ^ 21 * 2 ^ (- e) <=? Z.pos m)%Z in
      if big then None
      else Some ((if s then "-" else "") ++ place_point f (nearest_scaled f m e))
  end.

End Js.


(** ** Files, DOM fragments, failures and the environment *)

Module File.
Record t := { name : string; type : string; size : Z }.
End File.

(** The inline [style.display] of an element; [d_unset] is the value the
    markup leaves it with. *)
Inductive display := d_unset | d_none | d_block | d_flex.

(** The three panels of the result column. *)
Record Panels := {
  loadingState : display;
  resultsContent : display;
  emptyState : display }.

Record Status := { status_text : string; status_type : string }.

(** A connected Gradio client. *)
Record Client := { space : string }.

(** What a [try] block of the page controllers can throw. *)
Inductive Exn :=
| ClientNotLoaded
    (* new Error("Gradio client not loaded") *)
| ConnectRejected
    (* window.GradioClient.connect(...) rejected *)
| ReaderFailed
    (* fileToBlob rejected with the reader's error event *)
| NullClient
    (* TypeError: this.gradioClient is null when .predict is read *)
| PredictRejected (message : option string)
    (* predict rejected; [message] is the rejection's message when it is a string *)
| NoValidResponse
    (* new Error("No valid response from Gradio API") *)
| InvalidResponseFormat
    (* new Error("Invalid response format from API") *)
| InvalidItemCount (data : Js.value)
    (* new Error(`Invalid response format - got ${data.length} items, expected at least 1`) *)
| ApiError (error : Js.value)
    (* new Error(apiResult.error) *).

(** An error notification appended to the document body by [showError]:
    a fixed text, or a text built from the caught error's message. *)
Inductive Notice :=
| Text (message : string)
| Caught (prefix : string) (error : Exn)
| Diagnosed (error : Exn)
    (* generateAugmentations: one of "API connection issue - please try
       again", "Network error - check your connection" and
       `Error: ${error.message}`, chosen by what error.message includes *).

(** The specification's names for the failures; the code tells them apart by
    message text only. *)
Inductive ErrorKind :=
| InvalidFileType
| FileTooLarge
| NoImageSelected
| ConnectionUnavailable
| MalformedResponse
| RemoteError (message : Js.value)
| TransportFailure.

Definition kind_of (e : Exn) : ErrorKind :=
  match e with
  | ClientNotLoaded | ConnectRejected | NullClient => ConnectionUnavailable
  | NoValidResponse | InvalidResponseFormat | InvalidItemCount _ => MalformedResponse
  | ApiError m => RemoteError m
  | ReaderFailed | PredictRejected _ => TransportFailure
  end.

(** Settlement of [gradioClient.predict(...)]. *)
Inductive PredictOutcome :=
| Rejects (message : option string)
| Resolves (result : Js.value).

(** What the browser and the network answer during one request. *)
Record Env := {
  GradioClient : nat -> bool;
    (* is window.GradioClient defined after [n] sleeps of 100 ms? *)
  connect_resolves : bool;
  blob_resolves : bool;
  predict : PredictOutcome }.

(** How one invocation of a submit handler ([analyzeImage],
    [generateAugmentations]) ends. *)
Inductive Outcome :=
| NotSubmitted
| Rendered
| Failed (error : Exn).

(** Where an invocation stands once it has reached its last [await]. *)
Inductive Phase :=
| Finished (o : Outcome)
| AwaitingResponse.

(** *** Connection acquisition (identical on both pages)

    [let attempts = 0;
     while (!window.GradioClient && attempts < 50) {
       await new Promise((resolve) => setTimeout(resolve, 100));
       attempts++; }]
    [fuel] bounds the number of times the loop condition is evaluated; the
    loop returns the final value of [attempts]. *)
Fixpoint poll (GradioClient : nat -> bool) (fuel attempts : nat) : option nat :=
  match fuel with
  | O => None
  | S fuel' =>
      if negb (GradioClient attempts) && Nat.ltb attempts 50
      then poll GradioClient fuel' (S attempts)
      else Some attempts
  end.

Definition poll_interval_ms : nat := 100.

(** The body of [initializeGradioClient]'s [try] block: the number of sleeps
    taken, and either the thrown error or the connected client. *)
Definition acquire (env : Env) (fuel : nat) (spaceUrl : string)
  : option (nat * (Exn + Client)) :=
  match poll (GradioClient env) fuel 0 with
  | None => None
  | Some attempts =>
      Some (attempts,
            if negb (GradioClient env attempts) then inl ClientNotLoaded
            else if connect_resolves env then inr {| space := spaceUrl |}
            else inl ConnectRejected)
  end.

(** ** The classification page: [class LungTumorClassifier] *)

Module Classifier.

Definition spaceUrl : string := "Bellahouell/lung_predict_api".

(** Upload column: the selected file, the submit button and the preview.
    The preview shows the data URL of a file and is filled in when the
    [FileReader] started by [displayImagePreview] fires [onload]; [readers]
    holds the files whose reader has not fired yet. *)
Record Upload := {
  currentImage : option File.t;
  analyzeBtn_disabled : bool;
  previewImg_src : option File.t;
  imagePreview_display : display;
  uploadArea_display : display;
  imageInfo : option File.t;
  readers : list File.t }.

(** One [.probability-bar-container]: icon, formatted name, the percentage
    text (shown and used as the fill width) and the fill colour. *)
Record Bar := {
  icon : string;
  formattedName : string;
  percentage : option string;
  color : string }.

(** The doughnut chart handed to [new Chart]. *)
Record Chart := {
  labels : list string;
  data : list (option string);
  backgroundColor : list string;
  borderColor : list string }.

(** What the result panel holds. *)
Record Results := {
  resultIcon : string;
  resultClass : string;
  resultConfidence : option string;
  probabilityBars : list Bar;
  chart : option Chart }.

(** The page.  [outstanding] and [calls] are ghost counters: the [predict]
    promises not yet settled, and the [predict] calls issued so far. *)
Record t := {
  gradioClient : option Client;
  upload : Upload;
  panels : Panels;
  results : Results;
  status : Status;
  notifications : list Notice;
  outstanding : nat;
  calls : nat }.

Definition with_gradioClient (c : option Client) (this : t) : t :=
  {| gradioClient := c; upload := upload this; panels := panels this;
     results := results this; status := status this;
     notifications := notifications this;
     outstanding := outstanding this; calls := calls this |}.

Definition with_upload (u : Upload) (this : t) : t :=
  {| gradioClient := gradioClient this; upload := u; panels := panels this;
     results := results this; status := status this;
     notifications := notifications this;
     outstanding := outstanding this; calls := calls this |}.

Definition with_panels (v : Panels) (this : t) : t :=
  {| gradioClient := gradioClient this; upload := upload this; panels := v;
     results := results this; status := status this;
     notifications := notifications this;
     outstanding := outstanding this; calls := calls this |}.

Definition with_results (r : Results) (this : t) : t :=
  {| gradioClient := gradioClient this; upload := upload this;
     panels := panels this; results := r; status := status this;
     notifications := notifications this;
     outstanding := outstanding this; calls := calls this |}.

Definition with_notifications (n : list Notice) (this : t) : t :=
  {| gradioClient := gradioClient this; upload := upload this;
     panels := panels this; results := results this; status := status this;
     notifications := n;
     outstanding := outstanding this; calls := calls this |}.

Definition with_counters (o c : nat) (this : t) : t :=
  {| gradioClient := gradioClient this; upload := upload this;
     panels := panels this; results := results this; status := status this;
     notifications := notifications this;
     outstanding := o; calls := c |}.

Definition updateStatus (message type : string) (this : t) : t :=
  {| gradioClient := gradioClient this; upload := upload this;
     panels := panels this; results := results this;
     status := {| status_text := message; status_type := type |};
     notifications := notifications this;
     outstanding := outstanding this; calls := calls this |}.

Definition showLoadingState (this : t) : t :=
  with_panels {| loadingState := d_flex; resultsContent := d_none;
                 emptyState := d_none |} this.

Definition showEmptyState (this : t) : t :=
  with_panels {| emptyState := d_flex; resultsContent := d_none;
                 loadingState := d_none |} this.

(** Appends the notification to the body, then shows the empty state.  The
    close button and the 5 s removal timer only take the notification away
    again; [notifications] records what was shown. *)
Definition showError (message : Notice) (this : t) : t :=
  let this := with_notifications (notifications this ++ [message]) this in
  (* Show empty state *)
  showEmptyState this.

Definition validTypes : list string := ["image/jpeg"; "image/jpg"; "image/png"].

Definition displayImagePreview (file : File.t) (this : t) : t :=
  let u := upload this in
  with_upload {| currentImage := currentImage u;
                 analyzeBtn_disabled := analyzeBtn_disabled u;
                 previewImg_src := previewImg_src u;
                 imagePreview_display := imagePreview_display u;
                 uploadArea_display := uploadArea_display u;
                 imageInfo := imageInfo u;
                 readers := readers u ++ [file] |} this.

(** [reader.onload] of the oldest pending preview reader. *)
Definition reader_onload (this : t) : t :=
  let u := upload this in
  match readers u with
  | [] => this
  | file :: rest =>
      with_upload {| currentImage := currentImage u;
                     analyzeBtn_disabled := analyzeBtn_disabled u;
                     previewImg_src := Some file;
                     imagePreview_display := d_block;
                     uploadArea_display := d_none;
                     imageInfo := Some file;
                     readers := rest |} this
  end.

Definition set_currentImage (f : option File.t) (this : t) : t :=
  let u := upload this in
  with_upload {| currentImage := f;
                 analyzeBtn_disabled := analyzeBtn_disabled u;
                 previewImg_src := previewImg_src u;
                 imagePreview_display := imagePreview_display u;
                 uploadArea_display := uploadArea_display u;
                 imageInfo := imageInfo u;
                 readers := readers u |} this.

Definition set_analyzeBtn_disabled (b : bool) (this : t) : t :=
  let u := upload this in
  with_upload {| currentImage := currentImage u;
                 analyzeBtn_disabled := b;
                 previewImg_src := previewImg_src u;
                 imagePreview_display := imagePreview_display u;
                 uploadArea_display := uploadArea_display u;
                 imageInfo := imageInfo u;
                 readers := readers u |} this.

Definition processFile (file : File.t) (this : t) : t :=
  (* Validate file type *)
  if negb (Text.includes validTypes (File.type file)) then
    showError (Text "Please upload a valid image file (PNG, JPG, JPEG)") this
  (* Validate file size (limit to 10MB) *)
  else if (File.size file >? 10 * 1024 * 1024)%Z then
    showError
      (Text "File size too large. Please upload an image smaller than 10MB.")
      this
  else
    let this := set_currentImage (Some file) this in
    let this := displayImagePreview file this in
    let this := set_analyzeBtn_disabled false this in
    updateStatus "Ready to analyze" "ready" this.

Definition clearImageSelection (this : t) : t :=
  let u := upload this in
  let this :=
    with_upload {| currentImage := None;
                   analyzeBtn_disabled := true;
                   previewImg_src := previewImg_src u;
                   imagePreview_display := d_none;
                   uploadArea_display := d_block;
                   imageInfo := imageInfo u;
                   readers := readers u |} this in
  let this := showEmptyState this in
  updateStatus "Ready" "ready" this.

(** *** Rendering *)

Definition formatClassName (className : string) : string :=
  String.concat " " (map Text.capitalize (Text.split "." className)).

(** [icons[className] || default], and likewise [colors[className]], for
    class names that do not name a property of [Object.prototype]. *)
Definition getClassIcon (className : string) : string :=
  if String.eqb className "adenocarcinoma" then "🔴"
  else if String.eqb className "large.cell.carcinoma" then "🟠"
  else if String.eqb className "normal" then "✅"
  else if String.eqb className "squamous.cell.carcinoma" then "🟡"
  else "🎯".

Definition getClassColor (className : string) : string :=
  if String.eqb className "adenocarcinoma" then "#e74c3c"
  else if String.eqb className "large.cell.carcinoma" then "#f39c12"
  else if String.eqb className "normal" then "#27ae60"
  else if String.eqb className "squamous.cell.carcinoma" then "#f1c40f"
  else "#3498db".

(** [Object.entries(probabilities).sort(([, a], [, b]) => b - a)]. *)
Definition sortedProbs (probabilities : list (string * float))
  : list (string * float) :=
  Text.sort (fun x y => (snd y - snd x)%float) probabilities.

Definition createProbabilityBars (probabilities : list (string * float))
  : list Bar :=
  map (fun entry =>
         let '(className, probability) := entry in
         {| icon := getClassIcon className;
            formattedName := formatClassName className;
            percentage := Js.toFixed (probability * 100)%float 1;
            color := getClassColor className |})
      (sortedProbs probabilities).

Definition createChart (probabilities : list (string * float)) : Chart :=
  let sorted := sortedProbs probabilities in
  let colors := map (fun e => getClassColor (fst e)) sorted in
  {| labels := map (fun e => formatClassName (fst e)) sorted;
     data := map (fun e => Js.toFixed (snd e * 100)%float 1) sorted;
     backgroundColor := colors;
     borderColor := map (fun color => color ++ "40") colors |}.

(** The response entry as [displayResults] reads it: [data.class] as a
    string, [data.confidence] and every probability through ToNumber, the
    probabilities in [Object.entries] order. *)
Record ClassificationResult := {
  class : string;
  confidence : float;
  probabilities : list (string * float) }.

Definition displayResults (data : ClassificationResult) (this : t) : t :=
  (* Hide loading and empty states *)
  let this := with_panels {| loadingState := d_none; emptyState := d_none;
                             resultsContent := d_block |} this in
  with_results
    {| resultClass := formatClassName (class data);
       resultConfidence :=
         option_map (fun s => "Confidence: " ++ s ++ "%")
                    (Js.toFixed (confidence data * 100)%float 2);
       resultIcon := getClassIcon (class data);
       probabilityBars := createProbabilityBars (probabilities data);
       chart := Some (createChart (probabilities data)) |} this.

(** *** Request orchestration *)

Fixpoint numbers (es : list (string * Js.value)) : option (list (string * float)) :=
  match es with
  | [] => Some []
  | (k, v) :: rest =>
      match Js.to_number v, numbers rest with
      | Some x, Some r => Some ((k, x) :: r)
      | _, _ => None
      end
  end.

(** Reads the entry the way [displayResults] does.  [None] on an entry
    whose rendering is not modelled: a truthy [class] that is not a string
    (a TypeError in [formatClassName]), or numbers that have to be parsed
    from strings or objects. *)
Definition decode (apiResult : Js.value) : option ClassificationResult :=
  match Js.get apiResult "class",
        Js.to_number (Js.get apiResult "confidence"),
        numbers (Js.entries (Js.get apiResult "probabilities")) with
  | Js.Str c, Some x, Some ps =>
      Some {| class := c; confidence := x; probabilities := ps |}
  | _, _, _ => None
  end.

(** Lines 189-204 of [analyzeImage]: the thrown error, or the entry that is
    handed to [displayResults]. *)
Definition interpret (result : Js.value) : Exn + Js.value :=
  if Js.truthy result && Js.truthy (Js.get result "data")
     && Js.truthy (Js.index (Js.get result "data") 0)
  then
    let apiResult := Js.index (Js.get result "data") 0 in
    if Js.truthy (Js.get apiResult "error") then
      inl (ApiError (Js.get apiResult "error"))
    else if Js.truthy (Js.get apiResult "class")
            && Js.truthy (Js.get apiResult "probabilities")
    then inr apiResult
    else inl InvalidResponseFormat
  else inl NoValidResponse.

(** [initializeGradioClient], run to completion. *)
Definition initializeGradioClient (env : Env) (fuel : nat) (this : t) : option t :=
  let this := updateStatus "Connecting to API..." "processing" this in
  match acquire env fuel spaceUrl with
  | None => None
  | Some (_, inr client) =>
      let this := with_gradioClient (Some client) this in
      Some (updateStatus "Ready" "ready" this)
  | Some (_, inl _) =>
      let this := updateStatus "API connection failed" "error" this in
      Some (showError
              (Text "Failed to connect to the AI service. Please refresh the page and try again.")
              this)
  end.

Definition ensureGradioConnection (env : Env) (fuel : nat) (this : t) : option t :=
  match gradioClient this with
  | None => initializeGradioClient env fuel this
  | Some _ => Some this
  end.

(** The [catch] block of [analyzeImage]. *)
Definition catch (error : Exn) (this : t) : t :=
  let this := showError (Caught "Analysis failed: " error) this in
  updateStatus "Error" "error" this.

(** [analyzeImage] up to the point where [predict] has been called; the
    awaits before that point (connection, blob conversion) are taken to
    complete with no other event in between. *)
Definition analyzeImage_submit (env : Env) (fuel : nat) (this : t)
  : option (t * Phase) :=
  match currentImage (upload this) with
  | None => Some (showError (Text "No image selected.") this, Finished NotSubmitted)
  | Some _ =>
      let this := showLoadingState this in
      let this := updateStatus "Analyzing..." "processing" this in
      (* Ensure Gradio client is connected *)
      match ensureGradioConnection env fuel this with
      | None => None
      | Some this =>
          (* Convert file to blob for Gradio client *)
          if negb (blob_resolves env) then
            Some (catch ReaderFailed this, Finished (Failed ReaderFailed))
          else
            match gradioClient this with
            | None => Some (catch NullClient this, Finished (Failed NullClient))
            | Some _ =>
                Some (with_counters (S (outstanding this)) (S (calls this)) this,
                      AwaitingResponse)
            end
      end
  end.

(** [analyzeImage] from the settlement of [predict] on.  [None] when the
    entry passes the guards but [decode] does not model its rendering. *)
Definition analyzeImage_settle (response : PredictOutcome) (this : t)
  : option (t * Outcome) :=
  let this := with_counters (pred (outstanding this)) (calls this) this in
  match response with
  | Rejects message =>
      Some (catch (PredictRejected message) this, Failed (PredictRejected message))
  | Resolves result =>
      match interpret result with
      | inl error => Some (catch error this, Failed error)
      | inr apiResult =>
          match decode apiResult with
          | None => None
          | Some data =>
              let this := displayResults data this in
              Some (updateStatus "Analysis complete" "success" this, Rendered)
          end
      end
  end.

(** One invocation of [analyzeImage] with no other event in between. *)
Definition analyzeImage (env : Env) (fuel : nat) (this : t) : option (t * Outcome) :=
  match analyzeImage_submit env fuel this with
  | None => None
  | Some (this, Finished o) => Some (this, o)
  | Some (this, AwaitingResponse) => analyzeImage_settle (predict env) this
  end.

(** A click on the submit button: the browser dispatches no click event to
    a disabled button. *)
Definition click_analyzeBtn (env : Env) (fuel : nat) (this : t) : option t :=
  if analyzeBtn_disabled (upload this) then Some this
  else option_map fst (analyzeImage_submit env fuel this).

End Classifier.

(** ** The augmentation page: [class ImageAugmentationApp] *)

Module Augmenter.

Definition spaceUrl : string := "Bellahouell/lung_augmentation_api".

Record Upload := {
  currentImage : option File.t;
  augmentBtn_disabled : bool;
  previewImg_src : option File.t;
  imagePreview_display : display;
  imageInfo : option File.t;
  readers : list File.t }.

(** One cell of the augmentation grid: the [src] given to its [img]
    ([None]: as the markup left it), whether [onload]/[onerror] handlers are
    installed, the [loading] class of its container and the [loaded] and
    [error] classes of its item. *)
Record Slot := {
  img_src : option Js.value;
  handlers : bool;
  loading : bool;
  loaded : bool;
  error : bool }.

(** A browser-level save triggered through a temporary link: its [href], and
    the [type] and [Date.now()] that make up the file name
    [augmented_<type>_<timestamp>.png]. *)
Record Download := {
  href : Js.value;
  download_type : option string;
  timestamp : Z }.

(** The grid, the click listeners installed on every [.download-btn] by
    [setupDownloadButtons], the pending [downloadAll] timeouts (delay in ms
    and slot index) and the saves triggered so far. *)
Record Grid := {
  slot : string -> Slot;
  download_listeners : nat;
  timers : list (nat * nat);
  downloads : list Download }.

Record t := {
  gradioClient : option Client;
  augmentationResults : option (list Js.value);
  upload : Upload;
  panels : Panels;
  grid : Grid;
  status : Status;
  notifications : list Notice;
  outstanding : nat;
  calls : nat }.

Definition with_gradioClient (c : option Client) (this : t) : t :=
  {| gradioClient := c; augmentationResults := augmentationResults this;
     upload := upload this; panels := panels this; grid := grid this;
     status := status this; notifications := notifications this;
     outstanding := outstanding this; calls := calls this |}.

Definition with_augmentationResults (r : option (list Js.value)) (this : t) : t :=
  {| gradioClient := gradioClient this; augmentationResults := r;
     upload := upload this; panels := panels this; grid := grid this;
     status := status this; notifications := notifications this;
     outstanding := outstanding this; calls := calls this |}.

Definition with_upload (u : Upload) (this : t) : t :=
  {| gradioClient := gradioClient this;
     augmentationResults := augmentationResults this;
     upload := u; panels := panels this; grid := grid this;
     status := status this; notifications := notifications this;
     outstanding := outstanding this; calls := calls this |}.

Definition with_panels (v : Panels) (this : t) : t :=
  {| gradioClient := gradioClient this;
     augmentationResults := augmentationResults this;
     upload := upload this; panels := v; grid := grid this;
     status := status this; notifications := notifications this;
     outstanding := outstanding this; calls := calls this |}.

Definition with_grid (g : Grid) (this : t) : t :=
  {| gradioClient := gradioClient this;
     augmentationResults := augmentationResults this;
     upload := upload this; panels := panels this; grid := g;
     status := status this; notifications := notifications this;
     outstanding := outstanding this; calls := calls this |}.

Definition with_counters (o c : nat) (this : t) : t :=
  {| gradioClient := gradioClient this;
     augmentationResults := augmentationResults this;
     upload := upload this; panels := panels this; grid := grid this;
     status := status this; notifications := notifications this;
     outstanding := o; calls := c |}.

Definition updateStatus (type text : string) (this : t) : t :=
  {| gradioClient := gradioClient this;
     augmentationResults := augmentationResults this;
     upload := upload this; panels := panels this; grid := grid this;
     status := {| status_text := text; status_type := type |};
     notifications := notifications this;
     outstanding := outstanding this; calls := calls this |}.

(** Appends the notification to the body; it is removed again 5.3 s later. *)
Definition showError (message : Notice) (this : t) : t :=
  {| gradioClient := gradioClient this;
     augmentationResults := augmentationResults this;
     upload := upload this; panels := panels this; grid := grid this;
     status := status this;
     notifications := notifications this ++ [message];
     outstanding := outstanding this; calls := calls this |}.

Definition set_augmentBtn_disabled (b : bool) (this : t) : t :=
  let u := upload this in
  with_upload {| currentImage := currentImage u;
                 augmentBtn_disabled := b;
                 previewImg_src := previewImg_src u;
                 imagePreview_display := imagePreview_display u;
                 imageInfo := imageInfo u;
                 readers := readers u |} this.

Definition showLoading (this : t) : t :=
  let this := with_panels {| loadingState := d_flex; resultsContent := d_none;
                             emptyState := d_none |} this in
  set_augmentBtn_disabled true this.

Definition hideLoading (this : t) : t :=
  let v := panels this in
  let this := with_panels {| loadingState := d_none;
                             resultsContent := resultsContent v;
                             emptyState := emptyState v |} this in
  set_augmentBtn_disabled false this.

Definition showResults (this : t) : t :=
  let v := panels this in
  with_panels {| loadingState := loadingState v;
                 resultsContent := d_block;
                 emptyState := d_none |} this.

Definition hideResults (this : t) : t :=
  let v := panels this in
  let this := with_panels {| loadingState := loadingState v;
                             resultsContent := d_none;
                             emptyState := d_block |} this in
  let g := grid this in
  with_grid
    {| slot := fun id =>
         let s := slot g id in
         (* Clear all images, reset all items *)
         {| img_src := Some (Js.Str ""); handlers := handlers s;
            loading := loading s; loaded := false; error := false |};
       download_listeners := download_listeners g;
       timers := timers g;
       downloads := downloads g |} this.

Definition validTypes : list string := ["image/png"; "image/jpeg"; "image/jpg"].

Definition isValidImageFile (file : File.t) : bool :=
  Text.includes validTypes (File.type file).

Definition displayImagePreview (file : File.t) (this : t) : t :=
  let u := upload this in
  with_upload {| currentImage := currentImage u;
                 augmentBtn_disabled := augmentBtn_disabled u;
                 previewImg_src := previewImg_src u;
                 imagePreview_display := imagePreview_display u;
                 imageInfo := imageInfo u;
                 readers := readers u ++ [file] |} this.

(** [reader.onload] of the oldest pending preview reader. *)
Definition reader_onload (this : t) : t :=
  let u := upload this in
  match readers u with
  | [] => this
  | file :: rest =>
      with_upload {| currentImage := currentImage u;
                     augmentBtn_disabled := augmentBtn_disabled u;
                     previewImg_src := Some file;
                     imagePreview_display := d_block;
                     imageInfo := Some file;
                     readers := rest |} this
  end.

Definition set_currentImage (f : option File.t) (this : t) : t :=
  let u := upload this in
  with_upload {| currentImage := f;
                 augmentBtn_disabled := augmentBtn_disabled u;
                 previewImg_src := previewImg_src u;
                 imagePreview_display := imagePreview_display u;
                 imageInfo := imageInfo u;
                 readers := readers u |} this.

Definition processFile (file : File.t) (this : t) : t :=
  if negb (isValidImageFile file) then
    showError (Text "Please select a valid image file (PNG, JPG, JPEG)") this
  else
    let this := set_currentImage (Some file) this in
    let this := displayImagePreview file this in
    let this := set_augmentBtn_disabled false this in
    updateStatus "ready" "Image Ready" this.

Definition clearImage (this : t) : t :=
  let u := upload this in
  let this :=
    with_upload {| currentImage := None;
                   augmentBtn_disabled := true;
                   previewImg_src := previewImg_src u;
                   imagePreview_display := d_none;
                   imageInfo := imageInfo u;
                   readers := readers u |} this in
  let this := hideResults this in
  updateStatus "ready" "Ready" this.

(** *** Rendering the grid *)

Definition imageElements : list string :=
  [ "originalImage"; "rotationImage"; "widthShiftImage"; "heightShiftImage";
    "shearImage"; "zoomImage"; "brightnessImage"; "channelShiftImage" ].

Fixpoint indexOf (x : string) (l : list string) : option nat :=
  match l with
  | [] => None
  | y :: l' => if String.eqb x y then Some 0 else option_map S (indexOf x l')
  end.

(** The body of the [imageElements.forEach] callback for the cell at
    [index]. *)
Definition bind (results : list Js.value) (index : nat) (s : Slot) : Slot :=
  if Js.truthy (nth index results Js.Undefined) then
    {| img_src := Some (nth index results Js.Undefined); handlers := true;
       loading := true; loaded := loaded s; error := error s |}
  else
    {| img_src := img_src s; handlers := handlers s;
       loading := loading s; loaded := loaded s; error := true |}.

Definition displayAugmentations (results : list Js.value) (this : t) : t :=
  let this := hideLoading this in
  let this := showResults this in
  let g := grid this in
  with_grid
    {| (* Map results to image elements *)
       slot := fun id =>
         match indexOf id imageElements with
         | Some index => bind results index (slot g id)
         | None => slot g id
         end;
       (* Setup download buttons *)
       download_listeners := S (download_listeners g);
       timers := timers g;
       downloads := downloads g |} this.

Definition with_slot (id : string) (s : Slot) (this : t) : t :=
  let g := grid this in
  with_grid {| slot := fun id' => if String.eqb id' id then s else slot g id';
               download_listeners := download_listeners g;
               timers := timers g;
               downloads := downloads g |} this.

(** [img.onload] and [img.onerror] of the image [id]; nothing happens while
    no handler is installed. *)
Definition img_onload (id : string) (this : t) : t :=
  let s := slot (grid this) id in
  if handlers s then
    with_slot id {| img_src := img_src s; handlers := true; loading := false;
                    loaded := true; error := error s |} this
  else this.

Definition img_onerror (id : string) (this : t) : t :=
  let s := slot (grid this) id in
  if handlers s then
    with_slot id {| img_src := img_src s; handlers := true; loading := false;
                    loaded := loaded s; error := true |} this
  else this.

(** *** Downloads *)

Definition types : list string :=
  [ "original"; "rotation"; "width-shift"; "height-shift";
    "shear"; "zoom"; "brightness"; "channel-shift" ].

Definition downloadImage (imageUrl : Js.value) (type : option string) (now : Z)
    (this : t) : t :=
  if negb (Js.truthy imageUrl) then this
  else
    let g := grid this in
    with_grid {| slot := slot g;
                 download_listeners := download_listeners g;
                 timers := timers g;
                 downloads := downloads g ++
                   [{| href := imageUrl; download_type := type;
                       timestamp := now |}] |} this.

(** One click listener installed by [setupDownloadButtons] on the button at
    [index], whose [data-type] attribute is [type]. *)
Definition download_listener (index : nat) (type : option string) (now : Z)
    (this : t) : t :=
  match augmentationResults this with
  | Some results =>
      if Js.truthy (nth index results Js.Undefined)
      then downloadImage (nth index results Js.Undefined) type now this
      else this
  | None => this
  end.

(** A click on the download button at [index]: every installed listener
    runs. *)
Definition click_download_btn (index : nat) (type : option string) (now : Z)
    (this : t) : t :=
  Nat.iter (download_listeners (grid this)) (download_listener index type now) this.

(** The timeouts [downloadAll] schedules, for the indices from [i] on. *)
Fixpoint schedule (results : list Js.value) (i : nat) : list (nat * nat) :=
  match results with
  | [] => []
  | r :: rest =>
      if Js.truthy r then (i * 200, i) :: schedule rest (S i)
      else schedule rest (S i)
  end.

Definition downloadAll (this : t) : t :=
  match augmentationResults this with
  | None => this
  | Some results =>
      let g := grid this in
      with_grid {| slot := slot g;
                   download_listeners := download_listeners g;
                   timers := timers g ++ schedule results 0;
                   downloads := downloads g |} this
  end.

(** The [k]-th pending timeout fires: its callback reads
    [this.augmentationResults[i]] at that moment. *)
Definition timer_fires (k : nat) (now : Z) (this : t) : t :=
  let g := grid this in
  match nth_error (timers g) k with
  | None => this
  | Some (_, i) =>
      let this :=
        with_grid {| slot := slot g;
                     download_listeners := download_listeners g;
                     timers := firstn k (timers g) ++ skipn (S k) (timers g);
                     downloads := downloads g |} this in
      match augmentationResults this with
      | Some results =>
          downloadImage (nth i results Js.Undefined) (nth_error types i) now this
      | None => this
      end
  end.

(** *** Request orchestration *)

(** The callback of [result.data.map]. *)
Definition extract (item : Js.value) : Js.value :=
  if Js.is_string item then item
  else if Js.truthy item && Js.truthy (Js.get item "url") then Js.get item "url"
  else if Js.truthy item && Js.truthy (Js.get item "path") then
    (* Fallback to path if url not available *)
    Js.get item "path"
  else Js.Null.

Definition imageUrls (data : list Js.value) : list Js.value :=
  filter Js.not_null (map extract data).

(** Lines 210-241 of [generateAugmentations]: the thrown error, or the
    extracted URLs that are stored and displayed. *)
Definition interpret (result : Js.value) : Exn + list Js.value :=
  if Js.truthy result && Js.truthy (Js.get result "data") then
    (* Array.isArray(result.data) && result.data.length >= 1 *)
    match Js.get result "data" with
    | Js.Arr (item :: items) => inr (imageUrls (item :: items))
    | data => inl (InvalidItemCount data)
    end
  else inl NoValidResponse.

(** [initializeGradioClient], run to completion. *)
Definition initializeGradioClient (env : Env) (fuel : nat) (this : t) : option t :=
  let this := updateStatus "processing" "Connecting to API..." this in
  match acquire env fuel spaceUrl with
  | None => None
  | Some (_, inr client) =>
      let this := with_gradioClient (Some client) this in
      Some (updateStatus "ready" "Ready" this)
  | Some (_, inl _) =>
      let this := updateStatus "error" "API connection failed" this in
      Some (showError
              (Text "Failed to connect to the AI service. Please refresh the page and try again.")
              this)
  end.

(** The [catch] block of [generateAugmentations].  When the caught value
    has no string [message], [error.message.includes] raises inside the
    block and neither [showError] nor [updateStatus] is reached. *)
Definition catch (error : Exn) (this : t) : t :=
  match error with
  | ReaderFailed | PredictRejected None => this
  | _ =>
      let this := showError (Diagnosed error) this in
      updateStatus "error" "Failed" this
  end.

(** [generateAugmentations] up to the point where [predict] has been
    called; the awaits before that point (connection, blob conversion) are
    taken to complete with no other event in between. *)
Definition generateAugmentations_submit (env : Env) (fuel : nat) (this : t)
  : option (t * Phase) :=
  match currentImage (upload this) with
  | None => Some (showError (Text "No image selected.") this, Finished NotSubmitted)
  | Some _ =>
      let this := showLoading this in
      let this := updateStatus "processing" "Processing..." this in
      (* Test connection first *)
      let connected :=
        match gradioClient this with
        | None =>
            let this := updateStatus "processing" "Connecting to API..." this in
            initializeGradioClient env fuel this
        | Some _ => Some this
        end in
      match connected with
      | None => None
      | Some this =>
          (* Convert file to blob for Gradio client *)
          if negb (blob_resolves env) then
            Some (catch ReaderFailed this, Finished (Failed ReaderFailed))
          else
            match gradioClient this with
            | None => Some (catch NullClient this, Finished (Failed NullClient))
            | Some _ =>
                Some (with_counters (S (outstanding this)) (S (calls this)) this,
                      AwaitingResponse)
            end
      end
  end.

(** [generateAugmentations] from the settlement of [predict] on. *)
Definition generateAugmentations_settle (response : PredictOutcome) (this : t)
  : t * Outcome :=
  let this := with_counters (pred (outstanding this)) (calls this) this in
  match response with
  | Rejects message =>
      (catch (PredictRejected message) this, Failed (PredictRejected message))
  | Resolves result =>
      match interpret result with
      | inl error => (catch error this, Failed error)
      | inr imageUrls =>
          let this := with_augmentationResults (Some imageUrls) this in
          let this := displayAugmentations imageUrls this in
          (updateStatus "success" "Complete" this, Rendered)
      end
  end.

(** One invocation of [generateAugmentations] with no other event in
    between. *)
Definition generateAugmentations (env : Env) (fuel : nat) (this : t)
  : option (t * Outcome) :=
  match generateAugmentations_submit env fuel this with
  | None => None
  | Some (this, Finished o) => Some (this, o)
  | Some (this, AwaitingResponse) =>
      Some (generateAugmentations_settle (predict env) this)
  end.

(** A click on the submit button: the browser dispatches no click event to
    a disabled button. *)
Definition click_augmentBtn (env : Env) (fuel : nat) (this : t) : option t :=
  if augmentBtn_disabled (upload this) then Some this
  else option_map fst (generateAugmentations_submit env fuel this).

(** The Enter branch of [handleKeydown]. *)
Definition keydown_Enter (env : Env) (fuel : nat) (this : t) : option t :=
  match currentImage (upload this) with
  | Some _ =>
      if negb (augmentBtn_disabled (upload this))
      then option_map fst (generateAugmentations_submit env fuel this)
      else Some this
  | None => Some this
  end.

End Augmenter.

(** ** Pages and answers used in the examples *)

Module Scenario.

(** The markup of the two pages is not part of the sources: the pages below
    start with every inline style unset and the submit button disabled, the
    state [clearImageSelection] and [clearImage] return to. *)
Definition unset_panels : Panels :=
  {| loadingState := d_unset; resultsContent := d_unset; emptyState := d_unset |}.

Definition no_status : Status := {| status_text := ""; status_type := "" |}.

(** The classification page as its constructor leaves it. *)
Definition classifier : Classifier.t :=
  {| Classifier.gradioClient := None;
     Classifier.upload :=
       {| Classifier.currentImage := None;
          Classifier.analyzeBtn_disabled := true;
          Classifier.previewImg_src := None;
          Classifier.imagePreview_display := d_unset;
          Classifier.uploadArea_display := d_unset;
          Classifier.imageInfo := None;
          Classifier.readers := [] |};
     Classifier.panels := unset_panels;
     Classifier.results :=
       {| Classifier.resultIcon := ""; Classifier.resultClass := "";
          Classifier.resultConfidence := None;
          Classifier.probabilityBars := []; Classifier.chart := None |};
     Classifier.status := no_status;
     Classifier.notifications := [];
     Classifier.outstanding := 0;
     Classifier.calls := 0 |}.

Definition empty_slot : Augmenter.Slot :=
  {| Augmenter.img_src := None; Augmenter.handlers := false;
     Augmenter.loading := false; Augmenter.loaded := false;
     Augmenter.error := false |}.

(** The augmentation page as its constructor leaves it. *)
Definition augmenter : Augmenter.t :=
  {| Augmenter.gradioClient := None;
     Augmenter.augmentationResults := None;
     Augmenter.upload :=
       {| Augmenter.currentImage := None;
          Augmenter.augmentBtn_disabled := true;
          Augmenter.previewImg_src := None;
          Augmenter.imagePreview_display := d_unset;
          Augmenter.imageInfo := None;
          Augmenter.readers := [] |};
     Augmenter.panels := unset_panels;
     Augmenter.grid :=
       {| Augmenter.slot := fun _ => empty_slot;
          Augmenter.download_listeners := 0;
          Augmenter.timers := [];
          Augmenter.downloads := [] |};
     Augmenter.status := no_status;
     Augmenter.notifications := [];
     Augmenter.outstanding := 0;
     Augmenter.calls := 0 |}.

Definition scan (bytes : Z) : File.t :=
  {| File.name := "scan.png"; File.type := "image/png"; File.size := bytes |}.

Definition document_pdf : File.t :=
  {| File.name := "report.pdf"; File.type := "application/pdf"; File.size := 2048 |}.

(** An environment in which the client library is present from the start,
    the connection and the blob conversion succeed, and [predict] settles
    as given. *)
Definition answering (response : PredictOutcome) : Env :=
  {| GradioClient := fun _ => true;
     connect_resolves := true;
     blob_resolves := true;
     predict := response |}.

(** An environment in which the client library never loads. *)
Definition offline : Env :=
  {| GradioClient := fun _ => false;
     connect_resolves := true;
     blob_resolves := true;
     predict := Rejects None |}.

Definition payload (entry : Js.value) : Js.value :=
  Js.Obj [("data", Js.Arr [entry])].

Definition normal_entry : Js.value :=
  Js.Obj
    [ ("class", Js.Str "normal");
      ("confidence", Js.Num 0.97%float);
      ("probabilities",
        Js.Obj [ ("normal", Js.Num 0.97%float);
                 ("adenocarcinoma", Js.Num 0.02%float);
                 ("large.cell.carcinoma", Js.Num 0.005%float);
                 ("squamous.cell.carcinoma", Js.Num 0.005%float) ]) ].

Definition error_entry : Js.value :=
  Js.Obj [("error", Js.Str "model unavailable")].

Definition class_only_entry : Js.value :=
  Js.Obj [("class", Js.Str "normal")].

(** Augmentation responses: one whose first item carries no reference, the
    specification's example (three URLs, then two nulls), and one without
    any usable item. *)
Definition shifted_response : Js.value :=
  Js.Obj [("data", Js.Arr [Js.Null; Js.Str "https://cdn/rotation.png"])].

Definition five_item_response : Js.value :=
  Js.Obj [("data",
           Js.Arr [ Js.Str "https://cdn/original.png";
                    Js.Obj [("url", Js.Str "https://cdn/rotation.png")];
                    Js.Obj [("path", Js.Str "/tmp/width-shift.png")];
                    Js.Null; Js.Null ])].


(** The classification page after a scan has been selected. *)
Definition classifier_with_scan : Classifier.t :=
  Classifier.reader_onload
    (Classifier.processFile (scan 4096) classifier).

(** The classification page while it shows the result of a first, successful
    analysis of that scan. *)
Definition classifier_showing_results : Classifier.t :=
  match Classifier.analyzeImage (answering (Resolves (payload normal_entry)))
                                51 classifier_with_scan with
  | Some (this, _) => this
  | None => classifier_with_scan
  end.

(** The augmentation page after a scan has been selected. *)
Definition augmenter_with_scan : Augmenter.t :=
  Augmenter.reader_onload
    (Augmenter.processFile (scan 4096) augmenter).

(** The augmentation page while the request for that scan awaits its
    response. *)
Definition augmenter_awaiting : Augmenter.t :=
  match Augmenter.generateAugmentations_submit
          (answering (Resolves five_item_response)) 51 augmenter_with_scan with
  | Some (this, _) => this
  | None => augmenter_with_scan
  end.


End Scenario.

(** ** The specification's vocabulary, read off the page state *)

Module Spec.

(** The failure a notification reports. *)
Definition kind_of_notice (n : Notice) : option ErrorKind :=
  match n with
  | Text m =>
      if String.eqb m "Please upload a valid image file (PNG, JPG, JPEG)"
         || String.eqb m "Please select a valid image file (PNG, JPG, JPEG)"
      then Some InvalidFileType
      else if String.eqb m
                "File size too large. Please upload an image smaller than 10MB."
      then Some FileTooLarge
      else if String.eqb m "No image selected." then Some NoImageSelected
      else if String.eqb m
                "Failed to connect to the AI service. Please refresh the page and try again."
      then Some ConnectionUnavailable
      else None
  | Caught _ e | Diagnosed e => Some (kind_of e)
  end.

(** [after] shows exactly one notification more than [before], and it
    reports [k]. *)
Definition reports (before after : list Notice) (k : ErrorKind) : Prop :=
  exists n, after = (before ++ [n])%list /\ kind_of_notice n = Some k.

(** A response interpretation fails with [k]. *)
Definition fails_with {A} (r : Exn + A) (k : ErrorKind) : Prop :=
  exists e, r = inl e /\ kind_of e = k.

(** The first entry of a response, [result.data[0]], and whether the
    response has one. *)
Definition first_entry (result : Js.value) : Js.value :=
  Js.index (Js.get result "data") 0.

Definition has_first_entry (result : Js.value) : bool :=
  Js.truthy result && Js.truthy (Js.get result "data")
  && Js.truthy (first_entry result).

(** A panel the script has switched on. *)
Definition switched_on (d : display) : bool :=
  match d with
  | d_block | d_flex => true
  | d_none | d_unset => false
  end.

(** UIState idle: no image is held, the submit control is disabled, and
    neither the spinner nor the result panel has been switched on. *)
Definition classifier_idle (this : Classifier.t) : bool :=
  match Classifier.currentImage (Classifier.upload this) with
  | None =>
      Classifier.analyzeBtn_disabled (Classifier.upload this)
      && negb (switched_on (loadingState (Classifier.panels this)))
      && negb (switched_on (resultsContent (Classifier.panels this)))
  | Some _ => false
  end.

Definition augmenter_idle (this : Augmenter.t) : bool :=
  match Augmenter.currentImage (Augmenter.upload this) with
  | None =>
      Augmenter.augmentBtn_disabled (Augmenter.upload this)
      && negb (switched_on (loadingState (Augmenter.panels this)))
      && negb (switched_on (resultsContent (Augmenter.panels this)))
  | Some _ => false
  end.

(** The reference stored for the slot at [index]:
    [this.augmentationResults[index]], [undefined] while no results are
    stored. *)
Definition stored_reference (this : Augmenter.t) (index : nat) : Js.value :=
  match Augmenter.augmentationResults this with
  | Some results => nth index results Js.Undefined
  | None => Js.Undefined
  end.


(** The state of the grid cell at [index] of [imageElements]. *)
Definition cell (this : Augmenter.t) (index : nat) : Augmenter.Slot :=
  Augmenter.slot (Augmenter.grid this) (nth index Augmenter.imageElements "").

(** The cells that show (or are loading) an image, and the cells marked as
    failed. *)
Definition populated (this : Augmenter.t) : list nat :=
  filter (fun i => Augmenter.loading (cell this i) || Augmenter.loaded (cell this i))
         (seq 0 8).

Definition failed (this : Augmenter.t) : list nat :=
  filter (fun i => Augmenter.error (cell this i)) (seq 0 8).

(** The panels once [showEmptyState] has run. *)
Definition empty_state_panels : Panels :=
  {| loadingState := d_none; resultsContent := d_none; emptyState := d_flex |}.


(** A click, and then another one on the page the first one leaves. *)
Definition then_click {A} (first : option A) (click : A -> option A) : option A :=
  match first with
  | Some this => click this
  | None => None
  end.

End Spec.

(** ** Vocabulary of the further properties *)

Module Rendering.

(** The bar [createProbabilityBars] builds for one entry. *)
Definition bar_of (entry : string * float) : Classifier.Bar :=
  {| Classifier.icon := Classifier.getClassIcon (fst entry);
     Classifier.formattedName := Classifier.formatClassName (fst entry);
     Classifier.percentage := Js.toFixed (snd entry * 100)%float 1;
     Classifier.color := Classifier.getClassColor (fst entry) |}.

(** The comparator of [createProbabilityBars] and [createChart] places [a]
    before [b]. *)
Definition before (a b : string * float) : bool :=
  ((snd b - snd a) <? 0)%float.


(** A string without the character [c]. *)
Fixpoint lacks (c : ascii) (s : string) : bool :=
  match s with
  | EmptyString => true
  | String c' rest => negb (Ascii.eqb c' c) && lacks c rest
  end.

End Rendering.

(** ** File selection handlers of both pages *)

Module Handlers.

(** [handleDrop] and [handleImageSelect] of the classification page: the
    first of the dropped or chosen files, if there is one, goes to
    [processFile].  (The [drag-over] class of the upload area is not part of
    the page state.) *)
Definition classifier_handleDrop (files : list File.t) (this : Classifier.t)
  : Classifier.t :=
  match files with
  | file :: _ => Classifier.processFile file this
  | [] => this
  end.

Definition classifier_handleImageSelect (files : list File.t) (this : Classifier.t)
  : Classifier.t :=
  match files with
  | file :: _ => Classifier.processFile file this
  | [] => this
  end.

(** [handleDrop] and [handleFileSelect] of the augmentation page. *)
Definition augmenter_handleDrop (files : list File.t) (this : Augmenter.t)
  : Augmenter.t :=
  match files with
  | file :: _ => Augmenter.processFile file this
  | [] => this
  end.

Definition augmenter_handleFileSelect (files : list File.t) (this : Augmenter.t)
  : Augmenter.t :=
  match nth_error files 0 with
  | Some file => Augmenter.processFile file this
  | None => this
  end.

(** The save a download button or a [downloadAll] timeout triggers for the
    reference stored at [index]. *)
Definition save_of (this : Augmenter.t) (index : nat) (type : option string)
    (now : Z) : Augmenter.Download :=
  {| Augmenter.href := Spec.stored_reference this index;
     Augmenter.download_type := type;
     Augmenter.timestamp := now |}.

End Handlers.

(** ** String methods used by the navigation drawer and the image viewer *)

Module Str.

(** [s.includes(needle)]. *)
Fixpoint includes (s needle : string) : bool :=
  String.prefix needle s
  || match s with
     | EmptyString => false
     | String _ rest => includes rest needle
     end.

(** [s.endsWith(suffix)]. *)
Fixpoint endsWith (s suffix : string) : bool :=
  String.eqb suffix s
  || match s with
     | EmptyString => false
     | String _ rest => endsWith rest suffix
     end.

Fixpoint drop (n : nat) (s : string) : string :=
  match n, s with
  | O, _ => s
  | S n', String _ rest => drop n' rest
  | S _, EmptyString => EmptyString
  end.

(** [s.replace(pattern, replacement)] for a string pattern and a
    replacement without [$]: the first occurrence is replaced. *)
Fixpoint replace (s pattern replacement : string) : string :=
  if String.prefix pattern s
  then replacement ++ drop (String.length pattern) s
  else match s with
       | EmptyString => EmptyString
       | String c rest => String c (replace rest pattern replacement)
       end.

(** [s.replace(/^\/+/, "")]. *)
Fixpoint strip_leading_slashes (s : string) : string :=
  match s with
  | String c rest => if Ascii.eqb c "/" then strip_leading_slashes rest else s
  | EmptyString => EmptyString
  end.

End Str.

(** ** The dialogs of the augmentation page *)

Module Viewer.

(** The information dialog ([modal]), the fullscreen image dialog
    ([imageModal]) and the scroll lock on the body. *)
Record t := {
  modal_display : display;
  modalTitle : string;
  imageModal_active : bool;
  imageModalImg_src : string;
  imageModalImg_alt : string;
  body_overflow : string }.

(** The dialogs as [createImageModal] and the markup leave them. *)
Definition initial : t :=
  {| modal_display := d_unset; modalTitle := "";
     imageModal_active := false;
     imageModalImg_src := ""; imageModalImg_alt := "";
     body_overflow := "" |}.

Definition showImageModal (src alt : string) (this : t) : t :=
  {| modal_display := modal_display this; modalTitle := modalTitle this;
     imageModal_active := true;
     imageModalImg_src := src; imageModalImg_alt := alt;
     body_overflow := "hidden" |}.

Definition hideImageModal (this : t) : t :=
  {| modal_display := modal_display this; modalTitle := modalTitle this;
     imageModal_active := false;
     imageModalImg_src := imageModalImg_src this;
     imageModalImg_alt := imageModalImg_alt this;
     body_overflow := "" |}.

(** [showModal(type)]; the body text of the dialog is not part of the
    state. *)
Definition showModal (type : string) (this : t) : t :=
  let title :=
    if String.eqb type "about" then "About Image Augmentation"
    else if String.eqb type "help" then "How to Use"
    else "" in
  {| modal_display := d_flex; modalTitle := title;
     imageModal_active := imageModal_active this;
     imageModalImg_src := imageModalImg_src this;
     imageModalImg_alt := imageModalImg_alt this;
     body_overflow := "hidden" |}.

Definition hideModal (this : t) : t :=
  {| modal_display := d_none; modalTitle := modalTitle this;
     imageModal_active := imageModal_active this;
     imageModalImg_src := imageModalImg_src this;
     imageModalImg_alt := imageModalImg_alt this;
     body_overflow := "" |}.

(** The click listener [setupImageClickHandlers] puts on every image
    container; [src] and [alt] are those of the image inside. *)
Definition click_image_container (src alt : string) (this : t) : t :=
  if negb (String.eqb src "") && negb (Str.endsWith src "")
  then showImageModal src alt this
  else this.

(** The Escape branch of [handleKeydown]. *)
Definition keydown_Escape (this : t) : t :=
  let this :=
    match modal_display this with
    | d_flex => hideModal this
    | _ => this
    end in
  if imageModal_active this then hideImageModal this else this.

Inductive event :=
| ClickAbout
| ClickHelp
| ClickModalClose
| ClickModalBackdrop
| ClickImageContainer (src alt : string)
| ClickImageModalClose
| ClickImageModalBackdrop
| KeyEscape.

Definition step (this : t) (e : event) : t :=
  match e with
  | ClickAbout => showModal "about" this
  | ClickHelp => showModal "help" this
  | ClickModalClose | ClickModalBackdrop => hideModal this
  | ClickImageContainer src alt => click_image_container src alt this
  | ClickImageModalClose | ClickImageModalBackdrop => hideImageModal this
  | KeyEscape => keydown_Escape this
  end.

Definition run (events : list event) : t := fold_left step events initial.

End Viewer.

(** ** The navigation drawer: [class DrawerNavigation] *)

Module Drawer.

(** [window.location]. *)
Record Location := { pathname : string; href : string }.

(** A [.drawer-nav-link]: its [id], [data-page] and [data-target]
    attributes, its [href] and its [active] and [loading] classes. *)
Record Link := {
  id : option string;
  data_page : option string;
  data_target : option string;
  link_href : string;
  link_active : bool;
  link_loading : bool }.

(** What has the keyboard focus. *)
Inductive Focus :=
| OnToggle
| OnLink (index : nat)
| Elsewhere.

Record t := {
  isOpen : bool;
  currentPath : string;
  toggle_active : bool;
  toggle_pressed : bool;
  aria_expanded : bool;
  drawer_active : bool;
  first_open : bool;
  first_opened : bool;
  body_drawer_open : bool;
  navLinks : list Link;
  focus : Focus }.

Definition getCorrectPath (location : Location) (path : string) : string :=
  let currentPath := pathname location in
  (* Check which directory we're in *)
  if Str.includes currentPath "/augmentation/" then
    if String.eqb path "classification/index.html" then "../classification/index.html"
    else if String.eqb path "augmentation/index.html" then "index.html"
    else path
  else if Str.includes currentPath "/classification/" then
    if String.eqb path "classification/index.html" then "index.html"
    else if String.eqb path "augmentation/index.html" then "../augmentation/index.html"
    else path
  else
    (* We're in root directory *)
    path.

Definition normalizePath (path : string) : string :=
  if String.eqb path "" then ""
  else
    (* Remove leading slash and normalize *)
    let path := Str.strip_leading_slashes path in
    (* Handle index.html as root *)
    if String.eqb path "index.html" || String.eqb path "" then "index"
    (* Handle nested paths *)
    else if Str.includes path "/index.html" then Str.replace path "/index.html" ""
    else Str.replace path ".html" "".

Definition attribute_is (attribute : option string) (value : string) : bool :=
  match attribute with
  | Some a => String.eqb a value
  | None => false
  end.

Definition isActiveForPage (location : Location) (currentPath : string)
    (page target : option string) : bool :=
  (* Check for classification page *)
  if attribute_is page "classification" then
    Str.includes currentPath "/classification/"
    || String.eqb currentPath ""
    || String.eqb currentPath "index"
    || (Str.endsWith currentPath "index.html"
        && negb (Str.includes currentPath "/augmentation/"))
    || (Str.endsWith currentPath "/"
        && negb (Str.includes currentPath "/augmentation/"))
  (* Check for augmentation page *)
  else if attribute_is page "augmentation" then
    Str.includes currentPath "/augmentation/"
    || Str.includes (href location) "/augmentation/"
  else
    (* Fallback to target-based matching *)
    match target with
    | Some t => if String.eqb t "" then false
                else String.eqb currentPath (normalizePath t)
    | None => false
    end.

Definition present (attribute : option string) : bool :=
  match attribute with
  | Some a => negb (String.eqb a "")
  | None => false
  end.

Definition with_navLinks (links : list Link) (this : t) : t :=
  {| isOpen := isOpen this; currentPath := currentPath this;
     toggle_active := toggle_active this; toggle_pressed := toggle_pressed this;
     aria_expanded := aria_expanded this; drawer_active := drawer_active this;
     first_open := first_open this; first_opened := first_opened this;
     body_drawer_open := body_drawer_open this;
     navLinks := links; focus := focus this |}.

Definition setActiveState (location : Location) (this : t) : t :=
  with_navLinks
    (map (fun link =>
            {| id := id link; data_page := data_page link;
               data_target := data_target link; link_href := link_href link;
               link_active :=
                 (present (data_target link) || present (data_page link))
                 && isActiveForPage location (normalizePath (currentPath this))
                                    (data_page link) (data_target link);
               link_loading := link_loading link |})
         (navLinks this))
    this.

Definition fixNavigationLinks (location : Location) (this : t) : t :=
  with_navLinks
    (map (fun link =>
            match data_target link with
            | Some target =>
                if String.eqb target "" then link
                else {| id := id link; data_page := data_page link;
                        data_target := data_target link;
                        link_href := getCorrectPath location target;
                        link_active := link_active link;
                        link_loading := link_loading link |}
            | None => link
            end)
         (navLinks this))
    this.

(** The four links [createDrawerHTML] writes. *)
Definition markup_links : list Link :=
  [ {| id := None; data_page := Some "classification";
       data_target := Some "classification/index.html";
       link_href := "#"; link_active := false; link_loading := false |};
    {| id := None; data_page := Some "augmentation";
       data_target := Some "augmentation/index.html";
       link_href := "#"; link_active := false; link_loading := false |};
    {| id := Some "drawer-about"; data_page := None; data_target := None;
       link_href := "#"; link_active := false; link_loading := false |};
    {| id := Some "drawer-help"; data_page := None; data_target := None;
       link_href := "#"; link_active := false; link_loading := false |} ].

(** The drawer as the constructor leaves it on a page at [location]. *)
Definition create (location : Location) : t :=
  setActiveState location
    (fixNavigationLinks location
       {| isOpen := false; currentPath := pathname location;
          toggle_active := false; toggle_pressed := false;
          aria_expanded := false; drawer_active := false;
          first_open := false; first_opened := false;
          body_drawer_open := false;
          navLinks := markup_links; focus := Elsewhere |}).

Definition open (this : t) : t :=
  {| isOpen := true; currentPath := currentPath this;
     toggle_active := true; toggle_pressed := true;
     aria_expanded := true; drawer_active := true;
     (* Add first-open class for animation *)
     first_open := if first_opened this then first_open this else true;
     first_opened := true;
     body_drawer_open := true;
     navLinks := navLinks this; focus := focus this |}.

Definition close (this : t) : t :=
  {| isOpen := false; currentPath := currentPath this;
     toggle_active := false; toggle_pressed := toggle_pressed this;
     aria_expanded := false; drawer_active := false;
     first_open := first_open this; first_opened := first_opened this;
     body_drawer_open := false;
     navLinks := navLinks this;
     (* Return focus to toggle button *)
     focus := OnToggle |}.

Definition toggle (this : t) : t :=
  if isOpen this then close this else open this.

Definition with_focus (f : Focus) (this : t) : t :=
  {| isOpen := isOpen this; currentPath := currentPath this;
     toggle_active := toggle_active this; toggle_pressed := toggle_pressed this;
     aria_expanded := aria_expanded this; drawer_active := drawer_active this;
     first_open := first_open this; first_opened := first_opened this;
     body_drawer_open := body_drawer_open this;
     navLinks := navLinks this; focus := f |}.

(** The keys the arrow-key listener of [handleKeyboardNavigation] reacts
    to. *)
Inductive NavKey := ArrowDown | ArrowUp | Home | End_.

(** [newIndex] of that listener; [%] is the remainder of truncated
    division. *)
Definition newIndex (key : NavKey) (currentIndex length : Z) : Z :=
  match key with
  | ArrowDown => Z.rem (currentIndex + 1) length
  | ArrowUp => Z.rem (currentIndex - 1 + length) length
  | Home => 0
  | End_ => length - 1
  end.

(** The arrow-key listener: it acts while the drawer is open and a
    navigation link has the focus. *)
Definition keydown_nav (key : NavKey) (this : t) : t :=
  if negb (isOpen this) then this
  else
    match focus this with
    | OnLink currentIndex =>
        if Nat.ltb currentIndex (List.length (navLinks this)) then
          let new := newIndex key (Z.of_nat currentIndex)
                              (Z.of_nat (List.length (navLinks this))) in
          if Z.eqb new (Z.of_nat currentIndex) then this
          else with_focus (OnLink (Z.to_nat new)) this
        else this
    | _ => this
    end.

Fixpoint set_loading (index : nat) (loading : bool) (links : list Link)
  : list Link :=
  match links, index with
  | [], _ => []
  | link :: rest, O =>
      {| id := id link; data_page := data_page link;
         data_target := data_target link; link_href := link_href link;
         link_active := link_active link; link_loading := loading |} :: rest
  | link :: rest, S index' => link :: set_loading index' loading rest
  end.

(** What can happen to the drawer: clicks on the toggle and close buttons,
    on the About or Help link and on a page link, the Escape key, the page
    becoming hidden, history navigation to another location, an arrow key,
    and the timeouts the handlers set up (the delayed close after a click
    on a page link, the removal of a link's [loading], of [pressed] and of
    [first-open], and the focus on the first link).  Events may come in any
    order. *)
Inductive event :=
| ClickToggle
| ClickClose
| ClickModalLink
| ClickPageLink (index : nat)
| KeyEscape
| PageHidden
| Popstate (location : Location)
| Key (key : NavKey)
| CloseTimeout
| LoadingTimeout (index : nat)
| PressedTimeout
| FirstOpenTimeout
| FocusTimeout.

Definition step (this : t) (e : event) : t :=
  match e with
  | ClickToggle => toggle this
  | ClickClose | ClickModalLink | PageHidden | CloseTimeout => close this
  | ClickPageLink index =>
      with_navLinks (set_loading index true (navLinks this)) this
  | LoadingTimeout index =>
      with_navLinks (set_loading index false (navLinks this)) this
  | Popstate location =>
      setActiveState location
        {| isOpen := isOpen this; currentPath := pathname location;
           toggle_active := toggle_active this;
           toggle_pressed := toggle_pressed this;
           aria_expanded := aria_expanded this;
           drawer_active := drawer_active this;
           first_open := first_open this; first_opened := first_opened this;
           body_drawer_open := body_drawer_open this;
           navLinks := navLinks this; focus := focus this |}
  | KeyEscape => if isOpen this then close this else this
  | Key key => keydown_nav key this
  | PressedTimeout =>
      {| isOpen := isOpen this; currentPath := currentPath this;
         toggle_active := toggle_active this; toggle_pressed := false;
         aria_expanded := aria_expanded this; drawer_active := drawer_active this;
         first_open := first_open this; first_opened := first_opened this;
         body_drawer_open := body_drawer_open this;
         navLinks := navLinks this; focus := focus this |}
  | FirstOpenTimeout =>
      {| isOpen := isOpen this; currentPath := currentPath this;
         toggle_active := toggle_active this; toggle_pressed := toggle_pressed this;
         aria_expanded := aria_expanded this; drawer_active := drawer_active this;
         first_open := false; first_opened := first_opened this;
         body_drawer_open := body_drawer_open this;
         navLinks := navLinks this; focus := focus this |}
  | FocusTimeout =>
      match navLinks this with
      | [] => this
      | _ :: _ => with_focus (OnLink 0) this
      end
  end.

Definition run (location : Location) (events : list event) : t :=
  fold_left step events (create location).

(** The drawer's flags agree: it is open exactly when the drawer and the
    toggle carry [active], the body carries [drawer-open] and
    [aria-expanded] is true. *)
Definition coherent (this : t) : Prop :=
  toggle_active this = isOpen this
  /\ aria_expanded this = isOpen this
  /\ drawer_active this = isOpen this
  /\ body_drawer_open this = isOpen this
  /\ (first_open this = true -> first_opened this = true)
  /\ (isOpen this = true -> first_opened this = true).

End Drawer.

(** * Properties *)

(** ** Upload validation *)

Lemma includes_false_iff (l : list string) (x : string) :
  Text.includes l x = false <-> ~ In x l.
Proof.
  unfold Text.includes. split.
  - intros H Hin.
    assert (existsb (String.eqb x) l = true) as E.
    { apply existsb_exists. exists x. split; [exact Hin | apply String.eqb_refl]. }
    congruence.
  - intros H. destruct (existsb (String.eqb x) l) eqn:E; [| reflexivity].
    apply existsb_exists in E. destruct E as [y [Hy Hxy]].
    apply String.eqb_eq in Hxy. subst y. contradiction.
Qed.

Lemma not_allowed_classifier (file : File.t) :
  File.type file <> "image/png" ->
  File.type file <> "image/jpeg" ->
  File.type file <> "image/jpg" ->
  Text.includes Classifier.validTypes (File.type file) = false.
Proof.
  intros H1 H2 H3. apply includes_false_iff. simpl. intuition congruence.
Qed.

Lemma not_allowed_augmenter (file : File.t) :
  File.type file <> "image/png" ->
  File.type file <> "image/jpeg" ->
  File.type file <> "image/jpg" ->
  Augmenter.isValidImageFile file = false.
Proof.
  intros H1 H2 H3. unfold Augmenter.isValidImageFile.
  apply includes_false_iff. simpl. intuition congruence.
Qed.

(** C8. A file whose MIME type is none of image/png, image/jpeg and
    image/jpg is rejected by [processFile] on both pages with the
    invalid-file-type notification; the stored image, the preview, the
    pending preview readers and the submit button are left as they were,
    and a page that was idle stays idle. *)
Theorem invalid_type_rejected :
  forall file : File.t,
    File.type file <> "image/png" ->
    File.type file <> "image/jpeg" ->
    File.type file <> "image/jpg" ->
    (forall this : Classifier.t,
        let this' := Classifier.processFile file this in
        Spec.reports (Classifier.notifications this)
                     (Classifier.notifications this') InvalidFileType
        /\ Classifier.upload this' = Classifier.upload this
        /\ Classifier.status this' = Classifier.status this
        /\ (Spec.classifier_idle this = true -> Spec.classifier_idle this' = true))
    /\
    (forall this : Augmenter.t,
        let this' := Augmenter.processFile file this in
        Spec.reports (Augmenter.notifications this)
                     (Augmenter.notifications this') InvalidFileType
        /\ Augmenter.upload this' = Augmenter.upload this
        /\ Augmenter.panels this' = Augmenter.panels this
        /\ Augmenter.status this' = Augmenter.status this
        /\ (Spec.augmenter_idle this = true -> Spec.augmenter_idle this' = true)).
Proof.
  intros file H1 H2 H3. split; intros this this'; subst this'.
  - unfold Classifier.processFile.
    rewrite (not_allowed_classifier file H1 H2 H3). cbn [negb].
    repeat split.
    + eexists. split; reflexivity.
    + unfold Spec.classifier_idle. cbn.
      destruct (Classifier.currentImage (Classifier.upload this)); [discriminate |].
      intros H. apply andb_prop in H. destruct H as [H _].
      apply andb_prop in H. destruct H as [H _]. rewrite H. reflexivity.
  - unfold Augmenter.processFile.
    rewrite (not_allowed_augmenter file H1 H2 H3). cbn [negb].
    repeat split.
    + eexists. split; reflexivity.
    + intros H. exact H.
Qed.

Lemma invalid_type_rejected_witness :
  Spec.classifier_idle Scenario.classifier = true /\
  Spec.classifier_idle
    (Classifier.processFile Scenario.document_pdf Scenario.classifier) = true /\
  Classifier.upload
    (Classifier.processFile Scenario.document_pdf Scenario.classifier)
  = Classifier.upload Scenario.classifier.
Proof.
  assert (File.type Scenario.document_pdf <> "image/png") as H1 by discriminate.
  assert (File.type Scenario.document_pdf <> "image/jpeg") as H2 by discriminate.
  assert (File.type Scenario.document_pdf <> "image/jpg") as H3 by discriminate.
  destruct (invalid_type_rejected Scenario.document_pdf H1 H2 H3) as [C _].
  destruct (C Scenario.classifier) as [_ [U [_ I]]].
  split; [reflexivity |]. split; [apply I; reflexivity | exact U].
Defined.

(** C6. On the classification page a file with 10 * 1024 * 1024 + 1 bytes is
    never stored, and when its type is an allowed one the rejection is the
    file-too-large notification; a file of an allowed type with exactly
    10 * 1024 * 1024 bytes is accepted: it becomes the current image, its
    preview is started, the submit button is enabled and no notification is
    shown. *)
Theorem size_limit_boundary :
  forall (file : File.t) (this : Classifier.t),
    let this' := Classifier.processFile file this in
    (File.size file = (10 * 1024 * 1024 + 1)%Z ->
       Classifier.upload this' = Classifier.upload this
       /\ (Text.includes Classifier.validTypes (File.type file) = true ->
           Spec.reports (Classifier.notifications this)
                        (Classifier.notifications this') FileTooLarge))
    /\
    (File.size file = (10 * 1024 * 1024)%Z ->
     Text.includes Classifier.validTypes (File.type file) = true ->
       Classifier.notifications this' = Classifier.notifications this
       /\ Classifier.currentImage (Classifier.upload this') = Some file
       /\ Classifier.analyzeBtn_disabled (Classifier.upload this') = false
       /\ Classifier.readers (Classifier.upload this')
          = (Classifier.readers (Classifier.upload this) ++ [file])%list).
Proof.
  intros file this this'. subst this'.
  unfold Classifier.processFile.
  split; intros Hsz; rewrite Hsz.
  - replace (10 * 1024 * 1024 + 1 >? 10 * 1024 * 1024)%Z with true by reflexivity.
    destruct (Text.includes Classifier.validTypes (File.type file)); cbn [negb].
    + split; [reflexivity | intros _; eexists; split; reflexivity].
    + split; [reflexivity | discriminate].
  - intros Hty. rewrite Hty. cbn [negb].
    replace (10 * 1024 * 1024 >? 10 * 1024 * 1024)%Z with false by reflexivity.
    repeat split.
Qed.

Lemma size_limit_boundary_witness :
  Text.includes Classifier.validTypes (File.type (Scenario.scan 10485761)) = true /\
  Spec.reports (Classifier.notifications Scenario.classifier)
    (Classifier.notifications
       (Classifier.processFile (Scenario.scan 10485761) Scenario.classifier))
    FileTooLarge /\
  Classifier.currentImage
    (Classifier.upload
       (Classifier.processFile (Scenario.scan 10485760) Scenario.classifier))
  = Some (Scenario.scan 10485760).
Proof.
  split; [reflexivity |]. split.
  - apply (size_limit_boundary (Scenario.scan 10485761) Scenario.classifier);
      reflexivity.
  - apply (size_limit_boundary (Scenario.scan 10485760) Scenario.classifier);
      reflexivity.
Defined.

(** ** Rendering of a classification *)

(** C7. For the response {class: "normal", confidence: 0.97, probabilities:
    {normal: 0.97, adenocarcinoma: 0.02, large.cell.carcinoma: 0.005,
    squamous.cell.carcinoma: 0.005}} the request ends in rendering; the bars
    come in the order normal, adenocarcinoma, large.cell.carcinoma,
    squamous.cell.carcinoma with the percentages 97.0, 2.0, 0.5 and 0.5, and
    the confidence line reads "Confidence: 97.00%". *)
Theorem normal_scan_rendering :
  forall this : Classifier.t,
    let settled :=
      Classifier.analyzeImage_settle
        (Resolves (Scenario.payload Scenario.normal_entry)) this in
    option_map snd settled = Some Rendered
    /\ option_map
         (fun s => map (fun b => (Classifier.formattedName b, Classifier.percentage b))
                       (Classifier.probabilityBars (Classifier.results (fst s))))
         settled
       = Some [ ("Normal", Some "97.0");
                ("Adenocarcinoma", Some "2.0");
                ("Large Cell Carcinoma", Some "0.5");
                ("Squamous Cell Carcinoma", Some "0.5") ]
    /\ option_map
         (fun s => Classifier.resultConfidence (Classifier.results (fst s)))
         settled
       = Some (Some "Confidence: 97.00%")
    /\ option_map (map fst)
         (option_map (fun d => Classifier.sortedProbs (Classifier.probabilities d))
                     (Classifier.decode Scenario.normal_entry))
       = Some [ "normal"; "adenocarcinoma"; "large.cell.carcinoma";
                "squamous.cell.carcinoma" ].
Proof.
  intros this settled. subst settled.
  unfold Classifier.analyzeImage_settle.
  replace (Classifier.interpret (Scenario.payload Scenario.normal_entry))
    with (@inr Exn Js.value Scenario.normal_entry) by (vm_compute; reflexivity).
  destruct (Classifier.decode Scenario.normal_entry) as [data |] eqn:D;
    [| vm_compute in D; discriminate].
  vm_compute in D. injection D as <-.
  repeat split; vm_compute; reflexivity.
Qed.

(** ** Interpretation of a classification response *)

Lemma interpret_cases (result : Js.value) :
  let entry := Spec.first_entry result in
  Classifier.interpret result =
    if Spec.has_first_entry result then
      if Js.truthy (Js.get entry "error") then inl (ApiError (Js.get entry "error"))
      else if Js.truthy (Js.get entry "class")
              && Js.truthy (Js.get entry "probabilities")
      then inr entry
      else inl InvalidResponseFormat
    else inl NoValidResponse.
Proof. reflexivity. Qed.

(** C1 as amended. For every classification response: when the response,
    its data or the first entry of its data is missing or empty, the request
    fails with MalformedResponse; when the first entry carries a non-empty
    error field, it fails with RemoteError carrying that value; when the
    entry lacks a class label or lacks a probability mapping, it fails with
    MalformedResponse; only an entry with both is handed to the renderer.
    A failing interpretation ends the request as failed with that error, and
    an entry handed to the renderer ends it as rendered, the result panel
    holding what [displayResults] makes of the entry. *)
Theorem interpret_classification :
  forall result : Js.value,
    let entry := Spec.first_entry result in
    let outcome := Classifier.interpret result in
    (Spec.has_first_entry result = false ->
       Spec.fails_with outcome MalformedResponse)
    /\ (Spec.has_first_entry result = true ->
        Js.truthy (Js.get entry "error") = true ->
          Spec.fails_with outcome (RemoteError (Js.get entry "error")))
    /\ (Spec.has_first_entry result = true ->
        Js.truthy (Js.get entry "error") = false ->
        Js.truthy (Js.get entry "class") = false
        \/ Js.truthy (Js.get entry "probabilities") = false ->
          Spec.fails_with outcome MalformedResponse)
    /\ (Spec.has_first_entry result = true ->
        Js.truthy (Js.get entry "error") = false ->
        Js.truthy (Js.get entry "class") = true ->
        Js.truthy (Js.get entry "probabilities") = true ->
          outcome = inr entry)
    /\ (forall (e : Exn) (this : Classifier.t),
          outcome = inl e ->
          option_map snd (Classifier.analyzeImage_settle (Resolves result) this)
          = Some (Failed e))
    /\ (forall (data : Classifier.ClassificationResult) (this : Classifier.t),
          outcome = inr entry ->
          Classifier.decode entry = Some data ->
          option_map snd (Classifier.analyzeImage_settle (Resolves result) this)
          = Some Rendered
          /\ option_map (fun s => Classifier.results (fst s))
               (Classifier.analyzeImage_settle (Resolves result) this)
             = Some (Classifier.results (Classifier.displayResults data this))).
Proof.
  intros result entry outcome. subst outcome.
  split; [| split; [| split; [| split; [| split]]]].
  - rewrite interpret_cases. fold entry.
    intros ->. eexists; split; reflexivity.
  - rewrite interpret_cases. fold entry.
    intros -> ->. eexists; split; reflexivity.
  - rewrite interpret_cases. fold entry.
    intros -> -> [-> | ->]; [| rewrite andb_false_r];
      eexists; split; reflexivity.
  - rewrite interpret_cases. fold entry.
    intros -> -> -> ->. reflexivity.
  - intros e this H. unfold Classifier.analyzeImage_settle.
    rewrite H. reflexivity.
  - intros data this H D. unfold Classifier.analyzeImage_settle.
    rewrite H, D. split; reflexivity.
Qed.

(** C1, counterexample. The entry {class: "normal"} has a class label and no
    error field, yet the request is not rendered: it fails with
    MalformedResponse. *)
Lemma class_label_alone_is_not_rendered :
  Spec.has_first_entry (Scenario.payload Scenario.class_only_entry) = true
  /\ Js.truthy (Js.get Scenario.class_only_entry "error") = false
  /\ (Js.truthy (Js.get Scenario.class_only_entry "class")
      || Js.truthy (Js.get Scenario.class_only_entry "probabilities")) = true
  /\ Classifier.interpret (Scenario.payload Scenario.class_only_entry)
     <> inr Scenario.class_only_entry
  /\ Spec.fails_with
       (Classifier.interpret (Scenario.payload Scenario.class_only_entry))
       MalformedResponse.
Proof.
  repeat split; try reflexivity.
  - vm_compute. discriminate.
  - exists InvalidResponseFormat. split; reflexivity.
Qed.

(** ** Failed classification requests *)


Lemma ensure_frame (env : Env) (fuel : nat) (this c : Classifier.t) :
  Classifier.ensureGradioConnection env fuel this = Some c ->
  Classifier.results c = Classifier.results this
  /\ Classifier.upload c = Classifier.upload this
  /\ exists earlier,
       Classifier.notifications c
       = (Classifier.notifications this ++ earlier)%list.
Proof.
  unfold Classifier.ensureGradioConnection, Classifier.initializeGradioClient.
  destruct (Classifier.gradioClient this).
  - intros [= <-]. repeat split. exists []. symmetry. apply app_nil_r.
  - destruct (acquire env fuel Classifier.spaceUrl) as [[n [err | client]] |];
      intros [= <-]; repeat split.
    + eexists. reflexivity.
    + exists []. symmetry. apply app_nil_r.
Qed.




(** ** Connection acquisition *)

Lemma poll_bounded (available : nat -> bool) :
  forall fuel attempts : nat,
    50 - attempts < fuel ->
    exists n,
      poll available fuel attempts = Some n
      /\ attempts <= n
      /\ (n <= 50 \/ n = attempts)
      /\ (forall k, attempts <= k < n -> available k = false)
      /\ (available n = true \/ 50 <= n).
Proof.
  induction fuel as [| fuel IH]; intros attempts Hfuel; [lia |].
  cbn [poll].
  destruct (available attempts) eqn:A; cbn [negb andb].
  - exists attempts. repeat split; auto. intros k Hk. lia.
  - destruct (Nat.ltb attempts 50) eqn:L.
    + apply Nat.ltb_lt in L.
      destruct (IH (S attempts)) as [n [P [Hle [Hb [Hall Hend]]]]]; [lia |].
      exists n. repeat split; auto; try lia.
      intros k Hk. destruct (Nat.eq_dec k attempts) as [-> | Hne]; [exact A |].
      apply Hall. lia.
    + apply Nat.ltb_ge in L.
      exists attempts. repeat split; auto. intros k Hk. lia.
Qed.

(** C9. With the loop condition allowed to be evaluated 51 times or more,
    connection acquisition always returns: it sleeps [attempts <= 50] times
    of 100 ms (at most 5000 ms), stopping at the first check that finds the
    client factory.  It yields the connected client exactly when the factory
    is present at the last check and [connect] resolves; when the factory
    never became available, or [connect] rejected, it fails with
    ConnectionUnavailable, and then [initializeGradioClient] leaves both
    pages without a client and reports ConnectionUnavailable. *)
Theorem connection_acquisition_bounded :
  forall (env : Env) (fuel : nat),
    51 <= fuel ->
    exists (attempts : nat) (outcome : Exn + Client),
      (forall spaceUrl,
          acquire env fuel spaceUrl
          = Some (attempts,
                  match outcome with
                  | inl e => inl e
                  | inr _ => inr {| space := spaceUrl |}
                  end))
      /\ attempts <= 50
      /\ attempts * poll_interval_ms <= 5000
      /\ (forall k, k < attempts -> GradioClient env k = false)
      /\ (attempts < 50 -> GradioClient env attempts = true)
      /\ ((forall k, k <= 50 -> GradioClient env k = false) ->
            outcome = inl ClientNotLoaded)
      /\ (GradioClient env attempts = true -> connect_resolves env = false ->
            outcome = inl ConnectRejected)
      /\ (GradioClient env attempts = true -> connect_resolves env = true ->
            exists client, outcome = inr client)
      /\ (forall e, outcome = inl e ->
            kind_of e = ConnectionUnavailable
            /\ (forall this : Classifier.t,
                  exists this',
                    Classifier.initializeGradioClient env fuel this = Some this'
                    /\ Classifier.gradioClient this' = Classifier.gradioClient this
                    /\ Spec.reports (Classifier.notifications this)
                         (Classifier.notifications this') ConnectionUnavailable)
            /\ (forall this : Augmenter.t,
                  exists this',
                    Augmenter.initializeGradioClient env fuel this = Some this'
                    /\ Augmenter.gradioClient this' = Augmenter.gradioClient this
                    /\ Spec.reports (Augmenter.notifications this)
                         (Augmenter.notifications this') ConnectionUnavailable)).
Proof.
  intros env fuel Hfuel.
  destruct (poll_bounded (GradioClient env) fuel 0) as [n [P [_ [Hb [Hall Hend]]]]];
    [lia |].
  assert (n <= 50) as Hn by lia.
  exists n.
  exists (if negb (GradioClient env n) then inl ClientNotLoaded
          else if connect_resolves env then inr {| space := "" |}
          else inl ConnectRejected).
  assert (forall spaceUrl,
             acquire env fuel spaceUrl
             = Some (n, if negb (GradioClient env n) then inl ClientNotLoaded
                        else if connect_resolves env then inr {| space := spaceUrl |}
                        else inl ConnectRejected)) as Hacq.
  { intros spaceUrl. unfold acquire. rewrite P. reflexivity. }
  split.
  { intros spaceUrl. rewrite Hacq.
    destruct (GradioClient env n), (connect_resolves env); reflexivity. }
  split; [exact Hn |].
  split; [unfold poll_interval_ms; lia |].
  split; [intros k Hk; apply Hall; lia |].
  split; [intros Hlt; destruct Hend as [H | H]; [exact H | lia] |].
  split; [intros Hnever; rewrite (Hnever n Hn); reflexivity |].
  split; [intros -> ->; reflexivity |].
  split; [intros -> ->; eexists; reflexivity |].
  intros e He.
  split.
  { destruct (GradioClient env n), (connect_resolves env); cbn in He;
      inversion He; reflexivity. }
  split; intros this.
  - unfold Classifier.initializeGradioClient. rewrite Hacq.
    destruct (GradioClient env n), (connect_resolves env); cbn in He;
      try discriminate; cbn;
      (eexists; split; [reflexivity |];
       split; [reflexivity | eexists; split; reflexivity]).
  - unfold Augmenter.initializeGradioClient. rewrite Hacq.
    destruct (GradioClient env n), (connect_resolves env); cbn in He;
      try discriminate; cbn;
      (eexists; split; [reflexivity |];
       split; [reflexivity | eexists; split; reflexivity]).
Qed.

Lemma connection_acquisition_bounded_witness :
  51 <= 51 /\
  exists (attempts : nat) (outcome : Exn + Client),
    acquire Scenario.offline 51 Classifier.spaceUrl
    = Some (attempts,
            match outcome with
            | inl e => inl e
            | inr _ => inr {| space := Classifier.spaceUrl |}
            end)
    /\ attempts <= 50
    /\ outcome = inl ClientNotLoaded.
Proof.
  split; [lia |].
  destruct (connection_acquisition_bounded Scenario.offline 51 (le_n 51))
    as [attempts [outcome [A [B [_ [_ [_ [N _]]]]]]]].
  exists attempts, outcome.
  split; [apply A |]. split; [exact B |].
  apply N. intros k _. reflexivity.
Defined.

(** ** Interpretation of an augmentation response *)

Lemma cell_after_display (urls : list Js.value) (this : Augmenter.t) (index : nat) :
  index < 8 ->
  Spec.cell (Augmenter.displayAugmentations urls this) index
  = Augmenter.bind urls index (Spec.cell this index).
Proof.
  intros H. unfold Spec.cell, Augmenter.displayAugmentations.
  do 8 (destruct index as [| index]; [reflexivity |]). lia.
Qed.




Lemma catch_keeps_grid (e : Exn) (this : Augmenter.t) :
  Augmenter.augmentationResults (Augmenter.catch e this)
  = Augmenter.augmentationResults this
  /\ Augmenter.grid (Augmenter.catch e this) = Augmenter.grid this.
Proof. destruct e as [| | | | [m |] | | | d | err]; split; reflexivity. Qed.






(** C3, the code at the failing input. The first item of the response
    carries no reference and the second one does: the reference of item 1 is
    bound to cell 0 ([originalImage]), and cell 1 ([rotationImage]), whose
    own item is valid, is marked as failed. *)
Lemma null_item_shifts_later_references :
  Augmenter.extract
    (Js.index (Js.get Scenario.shifted_response "data") 0) = Js.Null
  /\ Augmenter.extract
       (Js.index (Js.get Scenario.shifted_response "data") 1)
     = Js.Str "https://cdn/rotation.png"
  /\ Augmenter.img_src
       (Spec.cell
          (fst (Augmenter.generateAugmentations_settle
                  (Resolves Scenario.shifted_response)
                  Scenario.augmenter_with_scan)) 0)
     = Some (Js.Str "https://cdn/rotation.png")
  /\ Spec.populated
       (fst (Augmenter.generateAugmentations_settle
               (Resolves Scenario.shifted_response)
               Scenario.augmenter_with_scan))
     = [0]
  /\ Spec.failed
       (fst (Augmenter.generateAugmentations_settle
               (Resolves Scenario.shifted_response)
               Scenario.augmenter_with_scan))
     = [1; 2; 3; 4; 5; 6; 7].
Proof. repeat split. Qed.


(** ** Downloads *)

Lemma downloadImage_falsy (url : Js.value) (type : option string) (now : Z)
    (this : Augmenter.t) :
  Js.truthy url = false -> Augmenter.downloadImage url type now this = this.
Proof. intros H. unfold Augmenter.downloadImage. rewrite H. reflexivity. Qed.

Lemma iter_fixed {A} (f : A -> A) (x : A) (n : nat) :
  f x = x -> Nat.iter n f x = x.
Proof.
  intros H. induction n as [| n IH]; [reflexivity |].
  change (Nat.iter (S n) f x) with (f (Nat.iter n f x)).
  rewrite IH. exact H.
Qed.

Lemma schedule_truthy (results : list Js.value) :
  forall (first delay i : nat),
    In (delay, i) (Augmenter.schedule results first) ->
    first <= i /\ Js.truthy (nth (i - first) results Js.Undefined) = true.
Proof.
  induction results as [| r rest IH]; intros first delay i Hin; cbn in Hin;
    [contradiction |].
  assert (In (delay, i) (Augmenter.schedule rest (S first)) ->
          first <= i /\ Js.truthy (nth (i - first) (r :: rest) Js.Undefined) = true)
    as Tail.
  { intros H. destruct (IH (S first) delay i H) as [Hle Ht].
    split; [lia |].
    replace (i - first) with (S (i - S first)) by lia. exact Ht. }
  destruct (Js.truthy r) eqn:R.
  - destruct Hin as [Heq | Hin]; [| exact (Tail Hin)].
    injection Heq as _ <-. split; [lia |].
    rewrite Nat.sub_diag. exact R.
  - exact (Tail Hin).
Qed.

(** C10. For a slot without a stored reference (no results stored, no entry
    at its index, or a null or empty entry) every download action is a
    no-op: [downloadImage] called with that reference, or with null or the
    empty string, returns the page unchanged; a click on the slot's download
    button changes nothing, however many listeners are installed;
    [downloadAll] schedules no timeout for the slot; and a timeout that fires
    for the slot saves nothing. *)
Theorem no_download_without_reference :
  forall (this : Augmenter.t) (index : nat),
    Js.truthy (Spec.stored_reference this index) = false ->
    (forall type now,
        Augmenter.downloadImage (Spec.stored_reference this index) type now this
        = this
        /\ Augmenter.downloadImage Js.Null type now this = this
        /\ Augmenter.downloadImage (Js.Str "") type now this = this)
    /\ (forall type now,
          Augmenter.click_download_btn index type now this = this)
    /\ (forall delay,
          In (delay, index)
             (Augmenter.timers (Augmenter.grid (Augmenter.downloadAll this))) ->
          In (delay, index) (Augmenter.timers (Augmenter.grid this)))
    /\ (forall k delay now,
          nth_error (Augmenter.timers (Augmenter.grid this)) k
          = Some (delay, index) ->
          Augmenter.downloads (Augmenter.grid (Augmenter.timer_fires k now this))
          = Augmenter.downloads (Augmenter.grid this)).
Proof.
  intros this index Hnone. repeat split.
  - apply downloadImage_falsy, Hnone.
  - intros type now. unfold Augmenter.click_download_btn.
    apply iter_fixed. unfold Augmenter.download_listener.
    unfold Spec.stored_reference in Hnone.
    destruct (Augmenter.augmentationResults this); [| reflexivity].
    rewrite Hnone. reflexivity.
  - intros delay. unfold Augmenter.downloadAll.
    unfold Spec.stored_reference in Hnone.
    destruct (Augmenter.augmentationResults this) as [results |];
      [| intros H; exact H].
    cbn. intros Hin. apply in_app_or in Hin. destruct Hin as [H | H]; [exact H |].
    apply schedule_truthy in H. destruct H as [_ H].
    rewrite Nat.sub_0_r in H. congruence.
  - intros k delay now Hk. unfold Augmenter.timer_fires. rewrite Hk.
    unfold Spec.stored_reference in Hnone.
    change (Augmenter.augmentationResults
              (Augmenter.with_grid
                 {| Augmenter.slot := Augmenter.slot (Augmenter.grid this);
                    Augmenter.download_listeners :=
                      Augmenter.download_listeners (Augmenter.grid this);
                    Augmenter.timers :=
                      (firstn k (Augmenter.timers (Augmenter.grid this))
                       ++ skipn (S k) (Augmenter.timers (Augmenter.grid this)))%list;
                    Augmenter.downloads :=
                      Augmenter.downloads (Augmenter.grid this) |} this))
      with (Augmenter.augmentationResults this).
    destruct (Augmenter.augmentationResults this) as [results |]; [| reflexivity].
    rewrite downloadImage_falsy by exact Hnone. reflexivity.
Qed.

Lemma no_download_without_reference_witness :
  Js.truthy
    (Spec.stored_reference
       (fst (Augmenter.generateAugmentations_settle
               (Resolves Scenario.five_item_response)
               Scenario.augmenter_with_scan)) 3) = false
  /\ Augmenter.click_download_btn 3 (Some "height-shift") 1700000000000
       (fst (Augmenter.generateAugmentations_settle
               (Resolves Scenario.five_item_response)
               Scenario.augmenter_with_scan))
     = fst (Augmenter.generateAugmentations_settle
              (Resolves Scenario.five_item_response)
              Scenario.augmenter_with_scan).
Proof.
  split; [reflexivity |].
  apply (no_download_without_reference
           (fst (Augmenter.generateAugmentations_settle
                   (Resolves Scenario.five_item_response)
                   Scenario.augmenter_with_scan)) 3 eq_refl).
Defined.




(** ** Submitting while a request is in flight *)

(** C5, the code at the failing input. On the classification page, with a
    scan selected and the endpoint reachable, a click on the submit button
    leaves the button enabled while the call is awaiting its response, and a
    second click issues a second call: two calls are outstanding. *)
Lemma classifier_second_click_issues_second_request :
  option_map
    (fun this => (Classifier.analyzeBtn_disabled (Classifier.upload this),
                  Classifier.outstanding this, Classifier.calls this))
    (Classifier.click_analyzeBtn
       (Scenario.answering (Resolves (Scenario.payload Scenario.normal_entry)))
       51 Scenario.classifier_with_scan)
  = Some (false, 1, 1)
  /\ option_map
       (fun this => (Classifier.analyzeBtn_disabled (Classifier.upload this),
                     Classifier.outstanding this, Classifier.calls this))
       (Spec.then_click
          (Classifier.click_analyzeBtn
             (Scenario.answering (Resolves (Scenario.payload Scenario.normal_entry)))
             51 Scenario.classifier_with_scan)
          (Classifier.click_analyzeBtn
             (Scenario.answering (Resolves (Scenario.payload Scenario.normal_entry)))
             51))
     = Some (false, 2, 2).
Proof. split; vm_compute; reflexivity. Qed.

(** On the classification page no step of a request touches the submit
    button: it is as enabled during and after the request as it was before. *)
Lemma classifier_request_never_disables_submit :
  forall (env : Env) (fuel : nat) (this this' : Classifier.t) (ph : Phase),
    Classifier.analyzeImage_submit env fuel this = Some (this', ph) ->
    Classifier.analyzeBtn_disabled (Classifier.upload this')
    = Classifier.analyzeBtn_disabled (Classifier.upload this).
Proof.
  intros env fuel this this' ph.
  unfold Classifier.analyzeImage_submit.
  destruct (Classifier.currentImage (Classifier.upload this)).
  - destruct (Classifier.ensureGradioConnection env fuel _) as [c |] eqn:E;
      [| discriminate].
    apply ensure_frame in E. destruct E as [_ [Eu _]]. cbn in Eu.
    destruct (blob_resolves env); cbn [negb].
    + destruct (Classifier.gradioClient c); intros [= <- _]; cbn; rewrite Eu;
        reflexivity.
    + intros [= <- _]. cbn. rewrite Eu. reflexivity.
  - intros [= <- _]. reflexivity.
Qed.

Lemma classifier_request_never_disables_submit_witness :
  Classifier.analyzeBtn_disabled
    (Classifier.upload
       (Classifier.with_counters 1 1
          (Classifier.with_gradioClient
             (Some {| space := Classifier.spaceUrl |})
             (Classifier.updateStatus "Ready" "ready"
                (Classifier.showLoadingState Scenario.classifier_with_scan)))))
  = Classifier.analyzeBtn_disabled (Classifier.upload Scenario.classifier_with_scan).
Proof.
  apply (classifier_request_never_disables_submit
           (Scenario.answering (Resolves (Scenario.payload Scenario.normal_entry)))
           51 Scenario.classifier_with_scan _ AwaitingResponse).
  vm_compute. reflexivity.
Defined.

(** The augmentation page does disable its submit button: once a request
    awaits its response the button is disabled, and both a further click and
    the Enter key leave the page as it is. *)
Lemma augmenter_resubmission_is_ignored :
  forall (env env' : Env) (fuel fuel' : nat) (this this' : Augmenter.t),
    Augmenter.generateAugmentations_submit env fuel this
    = Some (this', AwaitingResponse) ->
    Augmenter.augmentBtn_disabled (Augmenter.upload this') = true
    /\ Augmenter.outstanding this' = S (Augmenter.outstanding this)
    /\ Augmenter.click_augmentBtn env' fuel' this' = Some this'
    /\ Augmenter.keydown_Enter env' fuel' this' = Some this'.
Proof.
  intros env env' fuel fuel' this this'.
  unfold Augmenter.generateAugmentations_submit.
  destruct (Augmenter.currentImage (Augmenter.upload this)) as [image |] eqn:I;
    [| discriminate].
  assert (forall c : Augmenter.t,
             Augmenter.upload c
             = Augmenter.upload (Augmenter.showLoading this) ->
             Augmenter.outstanding c = Augmenter.outstanding this ->
             (if negb (blob_resolves env)
              then Some (Augmenter.catch ReaderFailed c, Finished (Failed ReaderFailed))
              else match Augmenter.gradioClient c with
                   | None => Some (Augmenter.catch NullClient c,
                                   Finished (Failed NullClient))
                   | Some _ =>
                       Some (Augmenter.with_counters
                               (S (Augmenter.outstanding c))
                               (S (Augmenter.calls c)) c, AwaitingResponse)
                   end) = Some (this', AwaitingResponse) ->
             Augmenter.augmentBtn_disabled (Augmenter.upload this') = true
             /\ Augmenter.outstanding this' = S (Augmenter.outstanding this)
             /\ Augmenter.click_augmentBtn env' fuel' this' = Some this'
             /\ Augmenter.keydown_Enter env' fuel' this' = Some this') as K.
  { intros c Hu Ho.
    destruct (blob_resolves env); cbn [negb]; [| discriminate].
    destruct (Augmenter.gradioClient c); [| discriminate].
    intros [= <-].
    unfold Augmenter.click_augmentBtn, Augmenter.keydown_Enter.
    cbn. rewrite Hu, Ho. cbn. rewrite I. repeat split. }
  destruct (Augmenter.gradioClient
              (Augmenter.updateStatus "processing" "Processing..."
                 (Augmenter.showLoading this))) eqn:G.
  - apply K; reflexivity.
  - unfold Augmenter.initializeGradioClient.
    destruct (acquire env fuel Augmenter.spaceUrl) as [[n [err | client]] |];
      [apply K; reflexivity | apply K; reflexivity | discriminate].
Qed.

Lemma augmenter_resubmission_is_ignored_witness :
  Augmenter.augmentBtn_disabled (Augmenter.upload Scenario.augmenter_awaiting) = true
  /\ Augmenter.click_augmentBtn Scenario.offline 51 Scenario.augmenter_awaiting
     = Some Scenario.augmenter_awaiting.
Proof.
  assert (Augmenter.generateAugmentations_submit
            (Scenario.answering (Resolves Scenario.five_item_response)) 51
            Scenario.augmenter_with_scan
          = Some (Scenario.augmenter_awaiting, AwaitingResponse)) as H
    by (vm_compute; reflexivity).
  destruct (augmenter_resubmission_is_ignored _ Scenario.offline _ 51 _ _ H)
    as [D [_ [C _]]].
  split; [exact D | exact C].
Defined.



(** ** Submitting without an image *)

(** With no image selected, submitting reports NoImageSelected and issues
    no call, on either page. *)
Lemma submit_without_image :
  forall (env : Env) (fuel : nat),
    (forall this : Classifier.t,
        Classifier.currentImage (Classifier.upload this) = None ->
        exists this',
          Classifier.analyzeImage env fuel this = Some (this', NotSubmitted)
          /\ Classifier.calls this' = Classifier.calls this
          /\ Classifier.outstanding this' = Classifier.outstanding this
          /\ Spec.reports (Classifier.notifications this)
               (Classifier.notifications this') NoImageSelected)
    /\
    (forall this : Augmenter.t,
        Augmenter.currentImage (Augmenter.upload this) = None ->
        exists this',
          Augmenter.generateAugmentations env fuel this = Some (this', NotSubmitted)
          /\ Augmenter.calls this' = Augmenter.calls this
          /\ Augmenter.outstanding this' = Augmenter.outstanding this
          /\ Spec.reports (Augmenter.notifications this)
               (Augmenter.notifications this') NoImageSelected).
Proof.
  intros env fuel. split; intros this H.
  - unfold Classifier.analyzeImage, Classifier.analyzeImage_submit. rewrite H.
    eexists. split; [reflexivity |]. repeat split.
    eexists. split; reflexivity.
  - unfold Augmenter.generateAugmentations, Augmenter.generateAugmentations_submit.
    rewrite H.
    eexists. split; [reflexivity |]. repeat split.
    eexists. split; reflexivity.
Qed.

(** * Further properties *)

(** ** Ordering of the probability bars *)

Lemma insert_permutation {A} (precedes : A -> A -> bool) (x : A) (l : list A) :
  Permutation (x :: l) (Text.insert precedes x l).
Proof.
  induction l as [| y l IH]; cbn [Text.insert]; [apply Permutation_refl |].
  destruct (precedes x y); [apply Permutation_refl |].
  apply perm_trans with (y :: x :: l); [apply perm_swap |].
  apply perm_skip, IH.
Qed.

Lemma sort_by_permutation {A} (precedes : A -> A -> bool) (l : list A) :
  Permutation l (Text.sort_by precedes l).
Proof.
  unfold Text.sort_by.
  assert (forall acc, Permutation (acc ++ l)%list
                        (fold_left (fun acc x => Text.insert precedes x acc) l acc))
    as G.
  { induction l as [| x l IH]; intros acc; cbn [fold_left].
    - rewrite app_nil_r. apply Permutation_refl.
    - apply perm_trans with ((Text.insert precedes x acc) ++ l)%list; [| apply IH].
      apply perm_trans with ((x :: acc) ++ l)%list.
      + apply Permutation_sym, Permutation_middle.
      + apply Permutation_app_tail, insert_permutation. }
  exact (G []).
Qed.

(** The bars are the entries' bars, rearranged: no class is lost, none is
    shown twice, and there are as many bars as entries. *)
Theorem bars_are_the_entries_rearranged :
  forall probabilities : list (string * float),
    Permutation (map Rendering.bar_of probabilities)
                (Classifier.createProbabilityBars probabilities)
    /\ List.length (Classifier.createProbabilityBars probabilities)
       = List.length probabilities.
Proof.
  intros probabilities.
  assert (Classifier.createProbabilityBars probabilities
          = map Rendering.bar_of (Classifier.sortedProbs probabilities)) as E.
  { unfold Classifier.createProbabilityBars. apply map_ext.
    intros [className probability]. reflexivity. }
  rewrite E. split.
  - apply Permutation_map. unfold Classifier.sortedProbs, Text.sort.
    apply sort_by_permutation.
  - rewrite length_map. symmetry. apply Permutation_length.
    unfold Classifier.sortedProbs, Text.sort. apply sort_by_permutation.
Qed.





(** The chart shows the bars: same order, same labels, same percentages and
    same colours, the border colour being the fill colour with "40"
    appended. *)
Theorem chart_matches_bars :
  forall probabilities : list (string * float),
    let bars := Classifier.createProbabilityBars probabilities in
    let chart := Classifier.createChart probabilities in
    Classifier.labels chart = map Classifier.formattedName bars
    /\ Classifier.data chart = map Classifier.percentage bars
    /\ Classifier.backgroundColor chart = map Classifier.color bars
    /\ Classifier.borderColor chart
       = map (fun b => Classifier.color b ++ "40") bars.
Proof.
  intros probabilities bars chart. subst bars chart.
  unfold Classifier.createChart, Classifier.createProbabilityBars.
  cbn [Classifier.labels Classifier.data Classifier.backgroundColor
       Classifier.borderColor].
  rewrite !map_map.
  repeat split; apply map_ext; intros [className probability]; reflexivity.
Qed.

Lemma insert_last {A} (precedes : A -> A -> bool) (x : A) (l : list A) :
  (forall y, In y l -> precedes x y = false) ->
  Text.insert precedes x l = (l ++ [x])%list.
Proof.
  induction l as [| y l IH]; intros H; cbn [Text.insert]; [reflexivity |].
  rewrite (H y (or_introl eq_refl)). cbn [app]. f_equal.
  apply IH. intros z Hz. apply H. right. exact Hz.
Qed.

(** Entries that the endpoint already sends in descending order, ties
    included, are shown in exactly the order received. *)
Theorem descending_input_keeps_its_order :
  forall probabilities : list (string * float),
    StronglySorted (fun a b => Rendering.before b a = false) probabilities ->
    Classifier.sortedProbs probabilities = probabilities.
Proof.
  intros probabilities S.
  unfold Classifier.sortedProbs, Text.sort, Text.sort_by.
  set (precedes := fun a b : string * float => ((snd b - snd a) <? 0)%float).
  assert (forall l acc,
             StronglySorted (fun a b => precedes b a = false) (acc ++ l)%list ->
             fold_left (fun acc x => Text.insert precedes x acc) l acc
             = (acc ++ l)%list) as G.
  { induction l as [| x l IH]; intros acc Sacc; cbn [fold_left].
    - symmetry. apply app_nil_r.
    - assert (forall y, In y acc -> precedes x y = false) as Hx.
      { clear IH. induction acc as [| a acc IHacc]; intros y Hy; [destruct Hy |].
        cbn [app] in Sacc. apply StronglySorted_inv in Sacc.
        destruct Sacc as [Srest Hall].
        destruct Hy as [<- | Hy].
        - rewrite Forall_forall in Hall. apply Hall.
          apply in_or_app. right. left. reflexivity.
        - apply IHacc; assumption. }
      rewrite (insert_last precedes x acc Hx).
      rewrite IH; rewrite <- app_assoc; [reflexivity | exact Sacc]. }
  exact (G probabilities [] S).
Qed.

Lemma descending_input_keeps_its_order_witness :
  Classifier.sortedProbs
    [ ("normal", 0.97%float); ("adenocarcinoma", 0.02%float);
      ("large.cell.carcinoma", 0.005%float);
      ("squamous.cell.carcinoma", 0.005%float) ]
  = [ ("normal", 0.97%float); ("adenocarcinoma", 0.02%float);
      ("large.cell.carcinoma", 0.005%float);
      ("squamous.cell.carcinoma", 0.005%float) ].
Proof.
  apply descending_input_keeps_its_order.
  repeat (constructor; [| repeat (constructor; [vm_compute; reflexivity |]);
                          constructor]).
  constructor.
Defined.

(** ** Formatting of class names and percentages *)







Lemma lacks_append (c : ascii) (a b : string) :
  Rendering.lacks c (a ++ b) = Rendering.lacks c a && Rendering.lacks c b.
Proof.
  induction a as [| x a IH]; cbn; [reflexivity |].
  rewrite IH. apply andb_assoc.
Qed.















(** ** Selecting and clearing an image *)

Lemma within_limit (size limit : Z) :
  (size <= limit)%Z -> (size >? limit)%Z = false.
Proof. intros H. rewrite Z.gtb_ltb. apply Z.ltb_ge. exact H. Qed.

(** Which files the two pages accept.  The classification page stores the
    first dropped file exactly when its type is allowed and it has at most
    10 * 1024 * 1024 bytes; the augmentation page has no size limit and
    stores the first file exactly when its type is allowed.  Further files
    of the same drop are ignored, an empty drop does nothing, and whenever
    the upload column changes at all, the first file has become the current
    image and the submit button is enabled. *)
Theorem upload_acceptance :
  forall (files : list File.t),
    (forall this : Classifier.t,
        let this' := Handlers.classifier_handleDrop files this in
        (forall file rest,
            files = file :: rest ->
            Text.includes Classifier.validTypes (File.type file) = true ->
            (File.size file <= 10 * 1024 * 1024)%Z ->
            Classifier.currentImage (Classifier.upload this') = Some file
            /\ Classifier.analyzeBtn_disabled (Classifier.upload this') = false
            /\ Classifier.notifications this' = Classifier.notifications this)
        /\ (Classifier.upload this' <> Classifier.upload this ->
            exists file rest,
              files = file :: rest
              /\ Text.includes Classifier.validTypes (File.type file) = true
              /\ (File.size file <= 10 * 1024 * 1024)%Z
              /\ Classifier.currentImage (Classifier.upload this') = Some file)
        /\ Handlers.classifier_handleImageSelect files this = this')
    /\
    (forall this : Augmenter.t,
        let this' := Handlers.augmenter_handleDrop files this in
        (forall file rest,
            files = file :: rest ->
            Augmenter.isValidImageFile file = true ->
            Augmenter.currentImage (Augmenter.upload this') = Some file
            /\ Augmenter.augmentBtn_disabled (Augmenter.upload this') = false
            /\ Augmenter.notifications this' = Augmenter.notifications this)
        /\ (Augmenter.upload this' <> Augmenter.upload this ->
            exists file rest,
              files = file :: rest
              /\ Augmenter.isValidImageFile file = true
              /\ Augmenter.currentImage (Augmenter.upload this') = Some file)
        /\ Handlers.augmenter_handleFileSelect files this = this').
Proof.
  intros files. split; intros this this'; subst this'.
  - split; [| split].
    + intros file rest -> Hty Hsz. cbn [Handlers.classifier_handleDrop].
      unfold Classifier.processFile. rewrite Hty. cbn [negb].
      rewrite (within_limit _ _ Hsz).
      repeat split.
    + destruct files as [| file rest]; cbn [Handlers.classifier_handleDrop];
        [intros H; exfalso; apply H; reflexivity |].
      unfold Classifier.processFile.
      destruct (Text.includes Classifier.validTypes (File.type file)) eqn:Hty;
        cbn [negb]; [| intros H; exfalso; apply H; reflexivity].
      destruct (File.size file >? 10 * 1024 * 1024)%Z eqn:Hsz;
        [intros H; exfalso; apply H; reflexivity |].
      intros _. exists file, rest.
      split; [reflexivity |]. split; [exact Hty |].
      split; [| reflexivity].
      rewrite Z.gtb_ltb in Hsz. apply Z.ltb_ge in Hsz. exact Hsz.
    + destruct files; reflexivity.
  - split; [| split].
    + intros file rest -> Hty. cbn [Handlers.augmenter_handleDrop].
      unfold Augmenter.processFile. rewrite Hty. repeat split.
    + destruct files as [| file rest]; cbn [Handlers.augmenter_handleDrop];
        [intros H; exfalso; apply H; reflexivity |].
      unfold Augmenter.processFile.
      destruct (Augmenter.isValidImageFile file) eqn:Hty; cbn [negb];
        [| intros H; exfalso; apply H; reflexivity].
      intros _. exists file, rest.
      split; [reflexivity |]. split; [exact Hty | reflexivity].
    + destruct files; reflexivity.
Qed.

(** Clearing the selection brings the classification page back to idle from
    any state: no image, submit disabled, empty state shown; the connection
    and the content of the result panel are kept, and a submit right after
    it is refused with NoImageSelected without any call. *)
Theorem clearImageSelection_returns_to_idle :
  forall this : Classifier.t,
    let cleared := Classifier.clearImageSelection this in
    Spec.classifier_idle cleared = true
    /\ Classifier.panels cleared = Spec.empty_state_panels
    /\ Classifier.results cleared = Classifier.results this
    /\ Classifier.gradioClient cleared = Classifier.gradioClient this
    /\ Classifier.notifications cleared = Classifier.notifications this
    /\ (forall env fuel,
          option_map snd (Classifier.analyzeImage env fuel cleared)
          = Some NotSubmitted
          /\ option_map (fun s => Classifier.calls (fst s))
               (Classifier.analyzeImage env fuel cleared)
             = Some (Classifier.calls this)).
Proof. intros this cleared. subst cleared. repeat split. Qed.

(** Clearing does not cancel a preview that is still being read: when the
    reader of a just selected file fires after the selection was cleared,
    the preview of that file is displayed although no image is held and the
    submit button is disabled; on both pages. *)
Theorem late_preview_after_clear :
  forall file : File.t,
    (forall this : Classifier.t,
        Text.includes Classifier.validTypes (File.type file) = true ->
        (File.size file <= 10 * 1024 * 1024)%Z ->
        Classifier.readers (Classifier.upload this) = [] ->
        let late :=
          Classifier.reader_onload
            (Classifier.clearImageSelection (Classifier.processFile file this)) in
        Classifier.currentImage (Classifier.upload late) = None
        /\ Classifier.analyzeBtn_disabled (Classifier.upload late) = true
        /\ Classifier.previewImg_src (Classifier.upload late) = Some file
        /\ Classifier.imagePreview_display (Classifier.upload late) = d_block
        /\ Classifier.uploadArea_display (Classifier.upload late) = d_none)
    /\
    (forall this : Augmenter.t,
        Augmenter.isValidImageFile file = true ->
        Augmenter.readers (Augmenter.upload this) = [] ->
        let late :=
          Augmenter.reader_onload
            (Augmenter.clearImage (Augmenter.processFile file this)) in
        Augmenter.currentImage (Augmenter.upload late) = None
        /\ Augmenter.augmentBtn_disabled (Augmenter.upload late) = true
        /\ Augmenter.previewImg_src (Augmenter.upload late) = Some file
        /\ Augmenter.imagePreview_display (Augmenter.upload late) = d_block).
Proof.
  intros file. split.
  - intros this Hty Hsz Hr late. subst late.
    unfold Classifier.processFile. rewrite Hty. cbn [negb].
    rewrite (within_limit _ _ Hsz).
    unfold Classifier.reader_onload. cbn. rewrite Hr. cbn. repeat split.
  - intros this Hty Hr late. subst late.
    unfold Augmenter.processFile. rewrite Hty. cbn [negb].
    unfold Augmenter.reader_onload. cbn. rewrite Hr. cbn. repeat split.
Qed.

(** ** Connection reuse *)

(** Once a page holds a client, a request does not look at the client
    factory, the [connect] outcome or the polling budget again: two
    environments that agree on the blob conversion and on the answer of
    [predict] give the same run, on both pages. *)
Theorem connected_requests_skip_acquisition :
  forall (env env' : Env) (fuel fuel' : nat),
    blob_resolves env = blob_resolves env' ->
    predict env = predict env' ->
    (forall (this : Classifier.t) (client : Client),
        Classifier.gradioClient this = Some client ->
        Classifier.analyzeImage env fuel this
        = Classifier.analyzeImage env' fuel' this)
    /\
    (forall (this : Augmenter.t) (client : Client),
        Augmenter.gradioClient this = Some client ->
        Augmenter.generateAugmentations env fuel this
        = Augmenter.generateAugmentations env' fuel' this).
Proof.
  intros env env' fuel fuel' Hb Hp. split; intros this client Hc.
  - unfold Classifier.analyzeImage, Classifier.analyzeImage_submit,
      Classifier.ensureGradioConnection.
    cbn [Classifier.gradioClient Classifier.updateStatus
         Classifier.showLoadingState Classifier.with_panels].
    rewrite Hc, Hb, Hp. reflexivity.
  - unfold Augmenter.generateAugmentations, Augmenter.generateAugmentations_submit.
    cbn [Augmenter.gradioClient Augmenter.updateStatus Augmenter.showLoading
         Augmenter.set_augmentBtn_disabled Augmenter.with_upload
         Augmenter.with_panels].
    rewrite Hc, Hb, Hp. reflexivity.
Qed.

Lemma connected_requests_skip_acquisition_witness :
  Classifier.analyzeImage
    (Scenario.answering (Resolves (Scenario.payload Scenario.error_entry)))
    51 Scenario.classifier_showing_results
  = Classifier.analyzeImage
      {| GradioClient := fun _ => false;
         connect_resolves := false;
         blob_resolves := true;
         predict := Resolves (Scenario.payload Scenario.error_entry) |}
      0 Scenario.classifier_showing_results.
Proof.
  eapply (connected_requests_skip_acquisition
            (Scenario.answering (Resolves (Scenario.payload Scenario.error_entry)))
            _ 51 0 eq_refl eq_refl).
  reflexivity.
Defined.

(** If the client factory is there at some check within the 50 sleeps and
    [connect] resolves, [initializeGradioClient] connects each page to its
    own space, reports nothing and ends with the status Ready. *)
Theorem connection_succeeds_when_factory_loads :
  forall (env : Env) (fuel first : nat),
    51 <= fuel ->
    first <= 50 ->
    GradioClient env first = true ->
    connect_resolves env = true ->
    (forall this : Classifier.t,
        exists this',
          Classifier.initializeGradioClient env fuel this = Some this'
          /\ Classifier.gradioClient this'
             = Some {| space := "Bellahouell/lung_predict_api" |}
          /\ Classifier.notifications this' = Classifier.notifications this
          /\ Classifier.status this'
             = {| status_text := "Ready"; status_type := "ready" |})
    /\
    (forall this : Augmenter.t,
        exists this',
          Augmenter.initializeGradioClient env fuel this = Some this'
          /\ Augmenter.gradioClient this'
             = Some {| space := "Bellahouell/lung_augmentation_api" |}
          /\ Augmenter.notifications this' = Augmenter.notifications this
          /\ Augmenter.status this'
             = {| status_text := "Ready"; status_type := "ready" |}).
Proof.
  intros env fuel first Hfuel Hfirst Havail Hconnect.
  destruct (poll_bounded (GradioClient env) fuel 0) as [n [P [_ [_ [Hall Hend]]]]];
    [lia |].
  assert (GradioClient env n = true) as Hn.
  { destruct Hend as [H | H]; [exact H |].
    destruct (Nat.eq_dec first n) as [<- | Hne]; [exact Havail |].
    assert (GradioClient env first = false) as F by (apply Hall; lia).
    congruence. }
  split; intros this.
  - unfold Classifier.initializeGradioClient, acquire.
    rewrite P, Hn, Hconnect. cbn. eexists. repeat split.
  - unfold Augmenter.initializeGradioClient, acquire.
    rewrite P, Hn, Hconnect. cbn. eexists. repeat split.
Qed.

Lemma connection_succeeds_when_factory_loads_witness :
  exists this',
    Classifier.initializeGradioClient
      {| GradioClient := fun n => Nat.leb 7 n;
         connect_resolves := true;
         blob_resolves := true;
         predict := Rejects None |}
      51 Scenario.classifier = Some this'
    /\ Classifier.gradioClient this'
       = Some {| space := "Bellahouell/lung_predict_api" |}.
Proof.
  destruct (connection_succeeds_when_factory_loads
              {| GradioClient := fun n => Nat.leb 7 n;
                 connect_resolves := true;
                 blob_resolves := true;
                 predict := Rejects None |}
              51 7 (le_n 51)) as [C _]; [lia | reflexivity | reflexivity |].
  destruct (C Scenario.classifier) as [this' [A [B _]]].
  exists this'. split; assumption.
Defined.

(** ** Stored references and the grid *)

Lemma extract_shape (item : Js.value) :
  Augmenter.extract item = Js.Null
  \/ Js.truthy (Augmenter.extract item) = true
  \/ Augmenter.extract item = Js.Str "".
Proof.
  unfold Augmenter.extract.
  destruct (Js.is_string item) eqn:S.
  - destruct item as [| | b | x | s | items | props]; try discriminate S.
    destruct s as [| c s]; [right; right; reflexivity | right; left; reflexivity].
  - destruct (Js.truthy item && Js.truthy (Js.get item "url")) eqn:U.
    + apply andb_prop in U. right. left. apply U.
    + destruct (Js.truthy item && Js.truthy (Js.get item "path")) eqn:P.
      * apply andb_prop in P. right. left. apply P.
      * left. reflexivity.
Qed.

(** The stored list never holds more references than the response has
    items, and never a null: each stored reference is a string item as it
    came, or a truthy [url] or [path]; so a stored reference is falsy only
    when the item was the empty string. *)
Theorem stored_references_are_usable :
  forall (data : list Js.value),
    List.length (Augmenter.imageUrls data) <= List.length data
    /\ forall r, In r (Augmenter.imageUrls data) ->
         r <> Js.Null
         /\ (Js.truthy r = true \/ r = Js.Str "")
         /\ exists item, In item data
              /\ (r = item \/ r = Js.get item "url" \/ r = Js.get item "path").
Proof.
  intros data. split.
  - unfold Augmenter.imageUrls.
    rewrite <- (length_map Augmenter.extract data). apply filter_length_le.
  - intros r Hr. unfold Augmenter.imageUrls in Hr.
    apply filter_In in Hr. destruct Hr as [Hin Hnn].
    apply in_map_iff in Hin. destruct Hin as [item [E Hitem]]. subst r.
    split; [intros N; rewrite N in Hnn; discriminate |]. split.
    + destruct (extract_shape item) as [N | [T | S]]; auto.
      rewrite N in Hnn. discriminate.
    + exists item. split; [exact Hitem |].
      unfold Augmenter.extract in *.
      destruct (Js.is_string item); [left; reflexivity |].
      destruct (Js.truthy item && Js.truthy (Js.get item "url"));
        [right; left; reflexivity |].
      destruct (Js.truthy item && Js.truthy (Js.get item "path"));
        [right; right; reflexivity | discriminate].
Qed.

Lemma bind_keeps_marks (urls : list Js.value) (index : nat) (s : Augmenter.Slot) :
  (Augmenter.error s = true -> Augmenter.error (Augmenter.bind urls index s) = true)
  /\ (Augmenter.loaded s = true ->
      Augmenter.loaded (Augmenter.bind urls index s) = true).
Proof.
  unfold Augmenter.bind.
  destruct (Js.truthy (nth index urls Js.Undefined)); split; intros H;
    first [exact H | reflexivity].
Qed.

(** A cell's [error] and [loaded] marks survive every later request,
    rendered or failed: a new rendering never removes them, so a cell that
    failed once still carries its error mark while a later image loads in
    it.  Only [clearImage] removes the marks, from every cell. *)
Theorem marks_are_sticky_until_cleared :
  forall (this : Augmenter.t) (index : nat),
    index < 8 ->
    (forall response : PredictOutcome,
        let this' := fst (Augmenter.generateAugmentations_settle response this) in
        (Augmenter.error (Spec.cell this index) = true ->
         Augmenter.error (Spec.cell this' index) = true)
        /\ (Augmenter.loaded (Spec.cell this index) = true ->
            Augmenter.loaded (Spec.cell this' index) = true))
    /\ Augmenter.error (Spec.cell (Augmenter.clearImage this) index) = false
    /\ Augmenter.loaded (Spec.cell (Augmenter.clearImage this) index) = false
    /\ Augmenter.img_src (Spec.cell (Augmenter.clearImage this) index)
       = Some (Js.Str "").
Proof.
  intros this index Hi. split; [| repeat split].
  intros response this'. subst this'.
  unfold Augmenter.generateAugmentations_settle.
  set (this0 := Augmenter.with_counters (pred (Augmenter.outstanding this))
                                        (Augmenter.calls this) this).
  assert (forall e, Spec.cell (Augmenter.catch e this0) index = Spec.cell this index)
    as K.
  { intros e. unfold Spec.cell.
    destruct (catch_keeps_grid e this0) as [_ G]. rewrite G. reflexivity. }
  destruct response as [message | result]; cbn [fst].
  - rewrite K. split; intros H; exact H.
  - destruct (Augmenter.interpret result) as [err | urls]; cbn [fst].
    + rewrite K. split; intros H; exact H.
    + change (Spec.cell
                (Augmenter.updateStatus "success" "Complete"
                   (Augmenter.displayAugmentations urls
                      (Augmenter.with_augmentationResults (Some urls) this0)))
                index)
        with (Spec.cell
                (Augmenter.displayAugmentations urls
                   (Augmenter.with_augmentationResults (Some urls) this0))
                index).
      rewrite (cell_after_display urls _ index Hi).
      apply bind_keeps_marks.
Qed.

Lemma marks_are_sticky_until_cleared_witness :
  Augmenter.error
    (Spec.cell
       (fst (Augmenter.generateAugmentations_settle
               (Resolves
                  (Js.Obj [("data", Js.Arr [Js.Str "a"; Js.Str "b"; Js.Str "c";
                                            Js.Str "d"])]))
               (fst (Augmenter.generateAugmentations_settle
                       (Resolves Scenario.five_item_response)
                       Scenario.augmenter_awaiting)))) 3) = true
  /\ Augmenter.loading
       (Spec.cell
          (fst (Augmenter.generateAugmentations_settle
                  (Resolves
                     (Js.Obj [("data", Js.Arr [Js.Str "a"; Js.Str "b"; Js.Str "c";
                                               Js.Str "d"])]))
                  (fst (Augmenter.generateAugmentations_settle
                          (Resolves Scenario.five_item_response)
                          Scenario.augmenter_awaiting)))) 3) = true.
Proof.
  split; [| reflexivity].
  apply (marks_are_sticky_until_cleared
           (fst (Augmenter.generateAugmentations_settle
                   (Resolves Scenario.five_item_response)
                   Scenario.augmenter_awaiting)) 3); [lia |].
  reflexivity.
Defined.

(** ** Download buttons and [downloadAll] *)

Lemma listeners_closed_form (this : Augmenter.t) (index : nat)
    (type : option string) (now : Z) :
  Js.truthy (Spec.stored_reference this index) = true ->
  forall n,
    let after := Nat.iter n (Augmenter.download_listener index type now) this in
    Augmenter.augmentationResults after = Augmenter.augmentationResults this
    /\ Augmenter.downloads (Augmenter.grid after)
       = (Augmenter.downloads (Augmenter.grid this)
          ++ repeat (Handlers.save_of this index type now) n)%list
    /\ Augmenter.download_listeners (Augmenter.grid after)
       = Augmenter.download_listeners (Augmenter.grid this)
    /\ Augmenter.timers (Augmenter.grid after)
       = Augmenter.timers (Augmenter.grid this).
Proof.
  intros T n. induction n as [| n IH].
  - cbn. rewrite app_nil_r. repeat split.
  - change (Nat.iter (S n) (Augmenter.download_listener index type now) this)
      with (Augmenter.download_listener index type now
              (Nat.iter n (Augmenter.download_listener index type now) this)).
    cbn zeta in *. destruct IH as [R [D [L Tm]]].
    set (p := Nat.iter n (Augmenter.download_listener index type now) this) in *.
    unfold Augmenter.download_listener.
    unfold Spec.stored_reference in T. rewrite R.
    destruct (Augmenter.augmentationResults this) as [results |] eqn:E;
      [| discriminate T].
    rewrite T. unfold Augmenter.downloadImage. rewrite T. cbn.
    rewrite R, D, L, Tm. repeat split.
    rewrite <- app_assoc. f_equal.
    change (nth index results Js.Undefined)
      with (match Some results with
            | Some results => nth index results Js.Undefined
            | None => Js.Undefined
            end).
    rewrite <- E.
    change (repeat (Handlers.save_of this index type now) n
            ++ [Handlers.save_of this index type now]
            = repeat (Handlers.save_of this index type now) (S n))%list.
    rewrite <- repeat_cons. reflexivity.
Qed.

(** Every rendered response installs one more click listener on each
    download button, and a failed one installs none; a click on the button
    of a slot that holds a reference saves that reference once per installed
    listener.  After two rendered responses one click saves the file
    twice. *)
Theorem download_button_saves_once_per_rendering :
  forall (this : Augmenter.t),
    (forall response : PredictOutcome,
        Augmenter.download_listeners
          (Augmenter.grid (fst (Augmenter.generateAugmentations_settle response this)))
        = match snd (Augmenter.generateAugmentations_settle response this) with
          | Rendered => S (Augmenter.download_listeners (Augmenter.grid this))
          | _ => Augmenter.download_listeners (Augmenter.grid this)
          end)
    /\ (forall (index : nat) (type : option string) (now : Z),
          Js.truthy (Spec.stored_reference this index) = true ->
          Augmenter.downloads
            (Augmenter.grid (Augmenter.click_download_btn index type now this))
          = (Augmenter.downloads (Augmenter.grid this)
             ++ repeat (Handlers.save_of this index type now)
                       (Augmenter.download_listeners (Augmenter.grid this)))%list).
Proof.
  intros this. split.
  - intros response. unfold Augmenter.generateAugmentations_settle.
    set (this0 := Augmenter.with_counters (pred (Augmenter.outstanding this))
                                          (Augmenter.calls this) this).
    assert (forall e,
               Augmenter.download_listeners (Augmenter.grid (Augmenter.catch e this0))
               = Augmenter.download_listeners (Augmenter.grid this)) as K.
    { intros e. destruct (catch_keeps_grid e this0) as [_ G]. rewrite G.
      reflexivity. }
    destruct response as [message | result]; cbn [fst snd]; [apply K |].
    destruct (Augmenter.interpret result) as [err | urls]; cbn [fst snd];
      [apply K | reflexivity].
  - intros index type now T. unfold Augmenter.click_download_btn.
    apply (listeners_closed_form this index type now T).
Qed.

Lemma schedule_complete (results : list Js.value) :
  forall (first i : nat),
    first <= i ->
    i - first < List.length results ->
    Js.truthy (nth (i - first) results Js.Undefined) = true ->
    In (i * 200, i) (Augmenter.schedule results first).
Proof.
  induction results as [| r rest IH]; intros first i Hle Hlt T;
    cbn [List.length] in Hlt; [lia |].
  cbn [Augmenter.schedule].
  destruct (Nat.eq_dec i first) as [-> | Hne].
  - rewrite Nat.sub_diag in T. cbn in T. rewrite T. left. reflexivity.
  - assert (In (i * 200, i) (Augmenter.schedule rest (S first))) as H.
    { apply IH; [lia | lia |].
      replace (i - first) with (S (i - S first)) in T by lia. exact T. }
    destruct (Js.truthy r); [right; exact H | exact H].
Qed.

Lemma schedule_delay (results : list Js.value) :
  forall (first delay i : nat),
    In (delay, i) (Augmenter.schedule results first) ->
    delay = i * 200 /\ i - first < List.length results.
Proof.
  induction results as [| r rest IH]; intros first delay i Hin; cbn in Hin;
    [contradiction |].
  assert (In (delay, i) (Augmenter.schedule rest (S first)) ->
          delay = i * 200 /\ i - first < List.length (r :: rest)) as Tail.
  { intros H. destruct (IH _ _ _ H) as [D L]. split; [exact D |].
    cbn [List.length]. lia. }
  destruct (Js.truthy r).
  - destruct Hin as [Heq | Hin]; [| exact (Tail Hin)].
    injection Heq as <- <-. split; [reflexivity |].
    rewrite Nat.sub_diag. cbn [List.length]. lia.
  - exact (Tail Hin).
Qed.

(** [downloadAll] does nothing while no results are stored; otherwise it
    adds one timeout for exactly the indices that hold a reference, the one
    for index [i] being due after [200 * i] ms.  When such a timeout fires
    while the reference is still stored, it is taken off the pending list
    and saves that reference once, under the [i]-th of the eight type
    names. *)
Theorem downloadAll_staggers_the_saves :
  forall (this : Augmenter.t),
    (Augmenter.augmentationResults this = None ->
       Augmenter.downloadAll this = this)
    /\ (forall results,
          Augmenter.augmentationResults this = Some results ->
          exists added,
            Augmenter.timers (Augmenter.grid (Augmenter.downloadAll this))
            = (Augmenter.timers (Augmenter.grid this) ++ added)%list
            /\ Augmenter.downloads (Augmenter.grid (Augmenter.downloadAll this))
               = Augmenter.downloads (Augmenter.grid this)
            /\ forall delay i,
                 In (delay, i) added
                 <-> (i < List.length results
                      /\ Js.truthy (nth i results Js.Undefined) = true
                      /\ delay = 200 * i))
    /\ (forall k delay i now,
          nth_error (Augmenter.timers (Augmenter.grid this)) k = Some (delay, i) ->
          Js.truthy (Spec.stored_reference this i) = true ->
          let fired := Augmenter.timer_fires k now this in
          Augmenter.downloads (Augmenter.grid fired)
          = (Augmenter.downloads (Augmenter.grid this)
             ++ [Handlers.save_of this i (nth_error Augmenter.types i) now])%list
          /\ S (List.length (Augmenter.timers (Augmenter.grid fired)))
             = List.length (Augmenter.timers (Augmenter.grid this))).
Proof.
  intros this. split; [| split].
  - intros H. unfold Augmenter.downloadAll. rewrite H. reflexivity.
  - intros results H. unfold Augmenter.downloadAll. rewrite H.
    exists (Augmenter.schedule results 0).
    split; [reflexivity |]. split; [reflexivity |].
    intros delay i. split.
    + intros Hin.
      destruct (schedule_delay _ _ _ _ Hin) as [D L].
      destruct (schedule_truthy _ _ _ _ Hin) as [_ T].
      rewrite Nat.sub_0_r in *. repeat split; [exact L | exact T | lia].
    + intros [L [T D]]. subst delay.
      replace (200 * i) with (i * 200) by lia.
      apply schedule_complete; [lia | |]; rewrite Nat.sub_0_r; assumption.
  - intros k delay i now Hk T fired. subst fired.
    unfold Augmenter.timer_fires. rewrite Hk.
    unfold Spec.stored_reference in T.
    unfold Handlers.save_of, Spec.stored_reference.
    cbn [Augmenter.augmentationResults Augmenter.with_grid].
    destruct (Augmenter.augmentationResults this) as [results |];
      [| discriminate T].
    unfold Augmenter.downloadImage. rewrite T. cbn.
    split; [reflexivity |].
    set (l := Augmenter.timers (Augmenter.grid this)) in *.
    change (S (List.length (firstn k l ++ skipn (S k) l)) = List.length l).
    rewrite length_app, length_firstn, length_skipn.
    assert (k < List.length l) as Hlt.
    { apply nth_error_Some. rewrite Hk. discriminate. }
    lia.
Qed.

Lemma downloadAll_staggers_the_saves_witness :
  Augmenter.timers
    (Augmenter.grid
       (Augmenter.downloadAll
          (fst (Augmenter.generateAugmentations_settle
                  (Resolves Scenario.five_item_response)
                  Scenario.augmenter_awaiting))))
  = [(0, 0); (200, 1); (400, 2)]
  /\ Augmenter.downloads
       (Augmenter.grid
          (Augmenter.timer_fires 1 1700000000000
             (Augmenter.downloadAll
                (fst (Augmenter.generateAugmentations_settle
                        (Resolves Scenario.five_item_response)
                        Scenario.augmenter_awaiting)))))
     = [ {| Augmenter.href := Js.Str "https://cdn/rotation.png";
            Augmenter.download_type := Some "rotation";
            Augmenter.timestamp := 1700000000000 |} ].
Proof.
  split; [reflexivity |].
  destruct (downloadAll_staggers_the_saves
              (Augmenter.downloadAll
                 (fst (Augmenter.generateAugmentations_settle
                         (Resolves Scenario.five_item_response)
                         Scenario.augmenter_awaiting)))) as [_ [_ F]].
  destruct (F 1 200 1 1700000000000%Z eq_refl eq_refl) as [D _].
  exact D.
Defined.

(** The load events of one image touch only that image's cell: every other
    cell, the stored references, the saves and the pending timeouts stay as
    they are; and before a reference has been bound to an image the events
    do nothing at all. *)
Theorem image_events_touch_only_their_cell :
  forall (this : Augmenter.t) (id : string),
    (forall other,
        other <> id ->
        Augmenter.slot (Augmenter.grid (Augmenter.img_onload id this)) other
        = Augmenter.slot (Augmenter.grid this) other
        /\ Augmenter.slot (Augmenter.grid (Augmenter.img_onerror id this)) other
           = Augmenter.slot (Augmenter.grid this) other)
    /\ Augmenter.augmentationResults (Augmenter.img_onload id this)
       = Augmenter.augmentationResults this
    /\ Augmenter.augmentationResults (Augmenter.img_onerror id this)
       = Augmenter.augmentationResults this
    /\ Augmenter.downloads (Augmenter.grid (Augmenter.img_onload id this))
       = Augmenter.downloads (Augmenter.grid this)
    /\ Augmenter.downloads (Augmenter.grid (Augmenter.img_onerror id this))
       = Augmenter.downloads (Augmenter.grid this)
    /\ (Augmenter.handlers (Augmenter.slot (Augmenter.grid this) id) = false ->
        Augmenter.img_onload id this = this
        /\ Augmenter.img_onerror id this = this)
    /\ (Augmenter.handlers (Augmenter.slot (Augmenter.grid this) id) = true ->
        Augmenter.loading
          (Augmenter.slot (Augmenter.grid (Augmenter.img_onload id this)) id) = false
        /\ Augmenter.loaded
             (Augmenter.slot (Augmenter.grid (Augmenter.img_onload id this)) id) = true
        /\ Augmenter.loading
             (Augmenter.slot (Augmenter.grid (Augmenter.img_onerror id this)) id) = false
        /\ Augmenter.error
             (Augmenter.slot (Augmenter.grid (Augmenter.img_onerror id this)) id) = true).
Proof.
  intros this id.
  unfold Augmenter.img_onload, Augmenter.img_onerror.
  destruct (Augmenter.handlers (Augmenter.slot (Augmenter.grid this) id)) eqn:H.
  - split; [| repeat split; try discriminate; cbn; rewrite String.eqb_refl;
              reflexivity].
    intros other Hne. cbn.
    apply String.eqb_neq in Hne. rewrite Hne. split; reflexivity.
  - repeat split; discriminate.
Qed.

(** ** The dialogs of the augmentation page *)

Lemma endsWith_empty (s : string) : Str.endsWith s "" = true.
Proof.
  induction s as [| c s IH]; [reflexivity |].
  cbn [Str.endsWith]. rewrite IH. apply orb_true_r.
Qed.

(** The fullscreen image view never opens.  The click listener of an image
    container asks that the image's [src] does not end with the empty
    string, which no string satisfies: a click on an image leaves the
    dialogs as they are, and so no sequence of clicks and key presses
    activates the image dialog.  Escape closes whatever dialog is open. *)
Theorem fullscreen_view_never_opens :
  (forall (src alt : string) (this : Viewer.t),
      Viewer.click_image_container src alt this = this)
  /\ (forall events : list Viewer.event,
        Viewer.imageModal_active (Viewer.run events) = false)
  /\ (forall this : Viewer.t,
        Viewer.modal_display (Viewer.keydown_Escape this) <> d_flex
        /\ Viewer.imageModal_active (Viewer.keydown_Escape this) = false).
Proof.
  assert (forall src alt this, Viewer.click_image_container src alt this = this)
    as Click.
  { intros src alt this. unfold Viewer.click_image_container.
    rewrite endsWith_empty, andb_false_r. reflexivity. }
  split; [exact Click |]. split.
  - intros events. unfold Viewer.run.
    assert (forall start,
               Viewer.imageModal_active start = false ->
               Viewer.imageModal_active (fold_left Viewer.step events start) = false)
      as G.
    { induction events as [| e events IH]; intros start H; [exact H |].
      cbn [fold_left]. apply IH.
      destruct e; cbn [Viewer.step]; try exact H; try reflexivity.
      - rewrite Click. exact H.
      - unfold Viewer.keydown_Escape.
        destruct (Viewer.modal_display start); cbn; rewrite H; cbn; exact H. }
    apply G. reflexivity.
  - intros this. unfold Viewer.keydown_Escape.
    destruct (Viewer.modal_display this) eqn:D;
      destruct (Viewer.imageModal_active this) eqn:A; cbn;
      rewrite ?D, ?A; cbn; rewrite ?D;
      split; first [discriminate | reflexivity | exact A].
Qed.

(** ** The navigation drawer *)

Lemma step_coherent (this : Drawer.t) (e : Drawer.event) :
  Drawer.coherent this -> Drawer.coherent (Drawer.step this e).
Proof.
  unfold Drawer.coherent.
  intros [Ht [Ha [Hd [Hb [Hf Ho]]]]].
  destruct e as [| | | index | | | location | key | | index | | |];
    cbn [Drawer.step]; unfold Drawer.toggle, Drawer.keydown_nav;
    repeat match goal with
           | |- context [if ?b then _ else _] => destruct b eqn:?
           | |- context [match Drawer.focus this with _ => _ end] =>
               destruct (Drawer.focus this) eqn:?
           | |- context [match Drawer.navLinks this with _ => _ end] =>
               destruct (Drawer.navLinks this) eqn:?
           end;
    cbn in *; repeat split; intros; try congruence; auto.
Qed.

(** The drawer's flags never drift apart: after any sequence of clicks,
    key presses, history navigation, visibility changes and timeouts, on any
    page, the drawer is open exactly when the drawer and the toggle carry
    [active], the body carries [drawer-open] and [aria-expanded] is true;
    and the first-open animation class is only ever present on a drawer that
    has been opened. *)
Theorem drawer_flags_stay_coherent :
  forall (location : Drawer.Location) (events : list Drawer.event),
    Drawer.coherent (Drawer.run location events).
Proof.
  intros location events. unfold Drawer.run.
  assert (forall start,
             Drawer.coherent start ->
             Drawer.coherent (fold_left Drawer.step events start)) as G.
  { induction events as [| e events IH]; intros start H; [exact H |].
    cbn [fold_left]. apply IH, step_coherent, H. }
  apply G. unfold Drawer.coherent. cbn. repeat split; discriminate.
Qed.

(** Arrow-key navigation stays on the links and wraps around: with the
    drawer open and link [i] of [n] focused, every key moves the focus to a
    link again; ArrowDown goes to [i + 1] and from the last link to the
    first, ArrowUp goes to [i - 1] and from the first link to the last, so
    each undoes the other; Home and End go to the first and the last link.
    While the drawer is closed the keys do nothing. *)
Theorem arrow_keys_cycle_through_links :
  forall (this : Drawer.t) (i : nat),
    Drawer.focus this = Drawer.OnLink i ->
    i < List.length (Drawer.navLinks this) ->
    let n := Z.of_nat (List.length (Drawer.navLinks this)) in
    (Drawer.isOpen this = false ->
       forall key, Drawer.keydown_nav key this = this)
    /\ (Drawer.isOpen this = true ->
        forall key,
          exists j,
            Drawer.focus (Drawer.keydown_nav key this) = Drawer.OnLink j
            /\ j < List.length (Drawer.navLinks this)
            /\ Z.of_nat j = Drawer.newIndex key (Z.of_nat i) n
            /\ Drawer.navLinks (Drawer.keydown_nav key this) = Drawer.navLinks this
            /\ Drawer.isOpen (Drawer.keydown_nav key this) = true)
    /\ Drawer.newIndex Drawer.ArrowDown (Z.of_nat i) n
       = (if Nat.eqb (S i) (List.length (Drawer.navLinks this))
          then 0 else Z.of_nat i + 1)%Z
    /\ Drawer.newIndex Drawer.ArrowUp (Z.of_nat i) n
       = (if Nat.eqb i 0 then n - 1 else Z.of_nat i - 1)%Z
    /\ Drawer.newIndex Drawer.ArrowUp
         (Drawer.newIndex Drawer.ArrowDown (Z.of_nat i) n) n = Z.of_nat i
    /\ Drawer.newIndex Drawer.ArrowDown
         (Drawer.newIndex Drawer.ArrowUp (Z.of_nat i) n) n = Z.of_nat i.
Proof.
  intros this i Hf Hi n.
  assert (0 <= Z.of_nat i < n)%Z as Hin by (unfold n; lia).
  assert (forall a : Z, (0 <= a < n)%Z ->
            Drawer.newIndex Drawer.ArrowDown a n
            = (if (a + 1 =? n)%Z then 0 else a + 1)%Z) as Down.
  { intros a Ha. unfold Drawer.newIndex.
    destruct (a + 1 =? n)%Z eqn:E.
    - apply Z.eqb_eq in E. rewrite E. apply Z.rem_same. lia.
    - apply Z.eqb_neq in E. apply Z.rem_small. lia. }
  assert (forall a : Z, (0 <= a < n)%Z ->
            Drawer.newIndex Drawer.ArrowUp a n
            = (if (a =? 0)%Z then n - 1 else a - 1)%Z) as Up.
  { intros a Ha. unfold Drawer.newIndex.
    destruct (a =? 0)%Z eqn:E.
    - apply Z.eqb_eq in E. subst a.
      replace (0 - 1 + n)%Z with (n - 1)%Z by lia. apply Z.rem_small. lia.
    - apply Z.eqb_neq in E.
      rewrite Z.rem_mod_nonneg by lia.
      symmetry. apply (Z.mod_unique_pos _ _ 1). lia. lia. }
  assert (forall key, (0 <= Drawer.newIndex key (Z.of_nat i) n < n)%Z) as Range.
  { intros key. destruct key.
    - rewrite Down by exact Hin. destruct (_ =? _)%Z eqn:E; [lia |].
      apply Z.eqb_neq in E. lia.
    - rewrite Up by exact Hin. destruct (_ =? _)%Z eqn:E; [lia |].
      apply Z.eqb_neq in E. lia.
    - cbn. lia.
    - cbn. lia. }
  split; [| split; [| split; [| split; [| split]]]].
  - intros O key. unfold Drawer.keydown_nav. rewrite O. reflexivity.
  - intros O key. unfold Drawer.keydown_nav. rewrite O, Hf. cbn [negb].
    apply Nat.ltb_lt in Hi. rewrite Hi. apply Nat.ltb_lt in Hi.
    fold n. specialize (Range key).
    set (new := Drawer.newIndex key (Z.of_nat i) n) in *.
    destruct (new =? Z.of_nat i)%Z eqn:E.
    + apply Z.eqb_eq in E. exists i. rewrite Hf, E. repeat split; auto.
    + exists (Z.to_nat new).
      cbn [Drawer.focus Drawer.with_focus Drawer.navLinks Drawer.isOpen].
      split; [reflexivity |]. split; [unfold n in Range; lia |].
      split; [lia |]. split; [reflexivity | exact O].
  - rewrite Down by exact Hin.
    destruct (Nat.eqb (S i) _) eqn:E.
    + apply Nat.eqb_eq in E.
      replace (Z.of_nat i + 1 =? n)%Z with true; [reflexivity |].
      symmetry. apply Z.eqb_eq. unfold n. lia.
    + apply Nat.eqb_neq in E.
      replace (Z.of_nat i + 1 =? n)%Z with false; [reflexivity |].
      symmetry. apply Z.eqb_neq. unfold n. lia.
  - rewrite Up by exact Hin.
    destruct (Nat.eqb i 0) eqn:E.
    + apply Nat.eqb_eq in E. subst i. reflexivity.
    + apply Nat.eqb_neq in E.
      replace (Z.of_nat i =? 0)%Z with false; [reflexivity |].
      symmetry. apply Z.eqb_neq. lia.
  - rewrite Down by exact Hin.
    destruct (Z.of_nat i + 1 =? n)%Z eqn:E.
    + apply Z.eqb_eq in E. rewrite Up by lia. cbn. lia.
    + apply Z.eqb_neq in E. rewrite Up by lia.
      replace (Z.of_nat i + 1 =? 0)%Z with false by (symmetry; apply Z.eqb_neq; lia).
      lia.
  - rewrite Up by exact Hin.
    destruct (Z.of_nat i =? 0)%Z eqn:E.
    + apply Z.eqb_eq in E. rewrite Down by lia.
      replace (n - 1 + 1 =? n)%Z with true by (symmetry; apply Z.eqb_eq; lia).
      lia.
    + apply Z.eqb_neq in E. rewrite Down by lia.
      replace (Z.of_nat i - 1 + 1 =? n)%Z with false
        by (symmetry; apply Z.eqb_neq; lia).
      lia.
Qed.

Lemma arrow_keys_cycle_through_links_witness :
  Drawer.focus
    (Drawer.keydown_nav Drawer.ArrowDown
       (Drawer.with_focus (Drawer.OnLink 3)
          (Drawer.open
             (Drawer.create {| Drawer.pathname := "/classification/index.html";
                               Drawer.href := "https://host/classification/index.html" |}))))
  = Drawer.OnLink 0.
Proof.
  destruct (arrow_keys_cycle_through_links
              (Drawer.with_focus (Drawer.OnLink 3)
                 (Drawer.open
                    (Drawer.create
                       {| Drawer.pathname := "/classification/index.html";
                          Drawer.href := "https://host/classification/index.html" |})))
              3 eq_refl) as [_ [Open [Down _]]]; [cbn; lia |].
  destruct (Open eq_refl Drawer.ArrowDown) as [j [F [_ [J _]]]].
  rewrite F. f_equal. rewrite Down in J. cbn in J. lia.
Defined.

(** *** Which link is highlighted *)

Lemma lacks_head (c a : ascii) (s : string) :
  Rendering.lacks c (String a s) = true -> a <> c /\ Rendering.lacks c s = true.
Proof.
  cbn [Rendering.lacks]. intros H. apply andb_prop in H. destruct H as [Ha Hs].
  apply negb_true_iff, Ascii.eqb_neq in Ha. split; assumption.
Qed.

Lemma prefix_head_mismatch (c a : ascii) (p s : string) :
  a <> c -> String.prefix (String c p) (String a s) = false.
Proof.
  intros H. cbn [String.prefix]. destruct (ascii_dec c a); [congruence | reflexivity].
Qed.

Lemma prefix_refl (s : string) : String.prefix s s = true.
Proof.
  induction s as [| c s IH]; [reflexivity |].
  cbn [String.prefix]. destruct (ascii_dec c c); [exact IH | congruence].
Qed.

Lemma includes_append (a b : string) : Str.includes (a ++ b) b = true.
Proof.
  induction a as [| c a IH].
  - cbn [append]. destruct b; cbn [Str.includes]; rewrite prefix_refl; reflexivity.
  - cbn [append Str.includes]. rewrite IH. apply orb_true_r.
Qed.

Lemma endsWith_append (a b : string) : Str.endsWith (a ++ b) b = true.
Proof.
  induction a as [| c a IH].
  - cbn [append]. destruct b; cbn [Str.endsWith]; rewrite String.eqb_refl;
      reflexivity.
  - cbn [append Str.endsWith]. rewrite IH. apply orb_true_r.
Qed.

Lemma includes_lacks (c : ascii) (t s : string) :
  Rendering.lacks c s = true -> Str.includes s (String c t) = false.
Proof.
  induction s as [| a s IH]; intros H; [reflexivity |].
  apply lacks_head in H. destruct H as [Ha Hs].
  cbn [Str.includes]. rewrite (prefix_head_mismatch c a t s Ha), (IH Hs).
  reflexivity.
Qed.

Lemma endsWith_lacks (c : ascii) (suffix s : string) :
  Rendering.lacks c s = true ->
  Rendering.lacks c suffix = false ->
  Str.endsWith s suffix = false.
Proof.
  intros Hs Hsuffix. induction s as [| a s IH].
  - cbn [Str.endsWith]. destruct (String.eqb_spec suffix "") as [-> | _];
      [discriminate Hsuffix | reflexivity].
  - cbn [Str.endsWith].
    destruct (String.eqb_spec suffix (String a s)) as [-> | _]; [congruence |].
    apply lacks_head in Hs. destruct Hs as [_ Hs]. rewrite (IH Hs). reflexivity.
Qed.

Lemma includes_trailing_slash (c : ascii) (t dir : string) :
  Rendering.lacks "/" dir = true ->
  Str.includes (dir ++ "/") (String "/" (String c t)) = false.
Proof.
  induction dir as [| a dir IH]; intros H.
  - cbn. destruct (ascii_dec "/" "/"); reflexivity.
  - apply lacks_head in H. destruct H as [Ha Hd].
    cbn [append Str.includes].
    rewrite (prefix_head_mismatch "/" a _ _ Ha), (IH Hd). reflexivity.
Qed.

Lemma replace_index_suffix (dir : string) :
  Rendering.lacks "/" dir = true ->
  Str.replace (dir ++ "/index.html") "/index.html" "" = dir.
Proof.
  induction dir as [| a dir IH]; intros H; [reflexivity |].
  apply lacks_head in H. destruct H as [Ha Hd].
  cbn [append Str.replace].
  rewrite (prefix_head_mismatch "/" a _ _ Ha), (IH Hd). reflexivity.
Qed.

Lemma replace_without_dot (s : string) :
  Rendering.lacks "." s = true -> Str.replace s ".html" "" = s.
Proof.
  induction s as [| a s IH]; intros H; [reflexivity |].
  apply lacks_head in H. destruct H as [Ha Hs].
  cbn [Str.replace].
  rewrite (prefix_head_mismatch "." a _ _ Ha), (IH Hs). reflexivity.
Qed.

Lemma strip_one_slash (dir rest : string) :
  dir <> "" ->
  Rendering.lacks "/" dir = true ->
  Str.strip_leading_slashes ("/" ++ dir ++ rest) = dir ++ rest.
Proof.
  intros Hne H. destruct dir as [| a dir]; [congruence |].
  apply lacks_head in H. destruct H as [Ha _].
  apply Ascii.eqb_neq in Ha.
  cbn. rewrite Ha. reflexivity.
Qed.

Lemma with_slash_is_not (dir rest s : string) :
  Rendering.lacks "/" s = true -> dir ++ String "/" rest <> s.
Proof.
  intros Hs E. rewrite <- E, lacks_append in Hs.
  cbn in Hs. rewrite andb_false_r in Hs. discriminate.
Qed.

Lemma normalizePath_index_page (dir : string) :
  dir <> "" ->
  Rendering.lacks "/" dir = true ->
  Drawer.normalizePath ("/" ++ dir ++ "/index.html") = dir.
Proof.
  intros Hne H. unfold Drawer.normalizePath.
  change (String.eqb ("/" ++ dir ++ "/index.html") "") with false.
  rewrite (strip_one_slash dir "/index.html" Hne H).
  destruct (String.eqb_spec (dir ++ "/index.html") "index.html") as [E | _];
    [exfalso; exact (with_slash_is_not dir "index.html" "index.html" eq_refl E) |].
  destruct (String.eqb_spec (dir ++ "/index.html") "") as [E | _];
    [exfalso; exact (with_slash_is_not dir "index.html" "" eq_refl E) |].
  cbn [orb]. rewrite includes_append. apply replace_index_suffix, H.
Qed.

Lemma normalizePath_directory (dir : string) :
  dir <> "" ->
  Rendering.lacks "/" dir = true ->
  Rendering.lacks "." dir = true ->
  Drawer.normalizePath ("/" ++ dir ++ "/") = dir ++ "/".
Proof.
  intros Hne H Hdot. unfold Drawer.normalizePath.
  change (String.eqb ("/" ++ dir ++ "/") "") with false.
  rewrite (strip_one_slash dir "/" Hne H).
  destruct (String.eqb_spec (dir ++ "/") "index.html") as [E | _];
    [exfalso; exact (with_slash_is_not dir "" "index.html" eq_refl E) |].
  destruct (String.eqb_spec (dir ++ "/") "") as [E | _];
    [exfalso; exact (with_slash_is_not dir "" "" eq_refl E) |].
  cbn [orb]. rewrite (includes_trailing_slash _ _ dir H).
  apply replace_without_dot. rewrite lacks_append, Hdot. reflexivity.
Qed.

(** Which links the drawer highlights on a page that lies in a directory
    [dir] directly under the root (a name without "/" and "."), as the
    classification and augmentation pages do.  Opened as
    [/dir/index.html], the tumour-classification link is highlighted only
    when [dir] is "index", so not on [/classification/index.html]; opened
    as [/dir/], it is highlighted whatever [dir] is, so also on
    [/augmentation/].  The augmentation link is highlighted exactly when the
    address contains "/augmentation/", and About and Help never are. *)
Theorem highlighted_links :
  forall (dir address : string),
    dir <> "" ->
    Rendering.lacks "/" dir = true ->
    Rendering.lacks "." dir = true ->
    map Drawer.link_active
        (Drawer.navLinks
           (Drawer.create {| Drawer.pathname := "/" ++ dir ++ "/index.html";
                             Drawer.href := address |}))
    = [ String.eqb dir "index"; Str.includes address "/augmentation/";
        false; false ]
    /\ map Drawer.link_active
         (Drawer.navLinks
            (Drawer.create {| Drawer.pathname := "/" ++ dir ++ "/";
                              Drawer.href := address |}))
       = [ true; Str.includes address "/augmentation/"; false; false ].
Proof.
  intros dir address Hne Hslash Hdot.
  assert (Rendering.lacks "/" (dir ++ "/") = false) as Hs2
    by (rewrite lacks_append; apply andb_false_r).
  split.
  - unfold Drawer.create, Drawer.setActiveState, Drawer.fixNavigationLinks.
    cbn [Drawer.navLinks Drawer.with_navLinks Drawer.currentPath Drawer.pathname
         Drawer.markup_links map Drawer.data_target Drawer.data_page
         Drawer.link_active Drawer.present Drawer.href].
    rewrite (normalizePath_index_page dir Hne Hslash).
    unfold Drawer.isActiveForPage.
    cbn [Drawer.attribute_is Drawer.href].
    rewrite !(includes_lacks "/" _ dir Hslash).
    rewrite (endsWith_lacks "." "index.html" dir Hdot eq_refl).
    rewrite (endsWith_lacks "/" "/" dir Hslash eq_refl).
    destruct (String.eqb_spec dir "") as [E | _]; [congruence |].
    cbn. rewrite !orb_false_r. reflexivity.
  - unfold Drawer.create, Drawer.setActiveState, Drawer.fixNavigationLinks.
    cbn [Drawer.navLinks Drawer.with_navLinks Drawer.currentPath Drawer.pathname
         Drawer.markup_links map Drawer.data_target Drawer.data_page
         Drawer.link_active Drawer.present Drawer.href].
    rewrite (normalizePath_directory dir Hne Hslash Hdot).
    unfold Drawer.isActiveForPage.
    cbn [Drawer.attribute_is Drawer.href].
    rewrite !(includes_trailing_slash _ _ dir Hslash).
    rewrite (endsWith_append dir "/").
    cbn. rewrite !orb_true_r. reflexivity.
Qed.

Lemma highlighted_links_witness :
  map Drawer.link_active
      (Drawer.navLinks
         (Drawer.create
            {| Drawer.pathname := "/classification/index.html";
               Drawer.href := "https://host/classification/index.html" |}))
  = [false; false; false; false]
  /\ map Drawer.link_active
       (Drawer.navLinks
          (Drawer.create
             {| Drawer.pathname := "/augmentation/";
                Drawer.href := "https://host/augmentation/" |}))
     = [true; true; false; false].
Proof.
  split.
  - apply (highlighted_links "classification"
             "https://host/classification/index.html");
      [discriminate | reflexivity | reflexivity].
  - apply (highlighted_links "augmentation" "https://host/augmentation/");
      [discriminate | reflexivity | reflexivity].
Defined.
